(** * Derma-AI assistant (app.py): a shallow embedding and its properties

    The application is a Streamlit script: a prompt builder, a chat turn
    handler that calls a generation endpoint, parses a sentinel line out of
    the answer, looks a product up through a web search and appends a row to
    a spreadsheet, and an image analysis handler.

    Python strings are modelled by [string], one [ascii] per code point below
    256. Python exceptions are values of [exn]; code that can raise returns a
    [result]; code that touches the session, the spreadsheet or the network
    runs in the state-and-exception monad [M] over [World]. *)

From Stdlib Require Import String Ascii List Bool Arith ZArith Lia.
From Stdlib Require Import DecimalString.
Import ListNotations.
Open Scope string_scope.
Open Scope list_scope.

Set Implicit Arguments.
Set Warnings "-register-all".

(** ** Python's string operations *)

Module Py.

Definition nl : ascii := "010"%char.
Definition dquote : ascii := "034"%char.

(** [str.isspace] on one code point below 256. *)
Definition isspace (c : ascii) : bool :=
  let n := nat_of_ascii c in
  (((9 <=? n) && (n <=? 13)) || ((28 <=? n) && (n <=? 32))
   || (n =? 133) || (n =? 160))%nat.

(** [s.startswith(p)] *)
Fixpoint startswith (p s : string) : bool :=
  match p, s with
  | EmptyString, _ => true
  | String _ _, EmptyString => false
  | String a p', String b s' => Ascii.eqb a b && startswith p' s'
  end.

(** [sub in s] *)
Fixpoint contains (sub s : string) : bool :=
  match s with
  | EmptyString => startswith sub EmptyString
  | String _ s' => startswith sub s || contains sub s'
  end.

(** [s.split(sep)] for a separator of one character: never empty. *)
Fixpoint split (sep : ascii) (s : string) : list string :=
  match s with
  | EmptyString => [EmptyString]
  | String c s' =>
      if Ascii.eqb c sep then EmptyString :: split sep s'
      else match split sep s' with
           | l :: ls => String c l :: ls
           | [] => [String c EmptyString]
           end
  end.

(** [s.replace(old, new)]: every occurrence of [old], left to right, with
    no overlap. [skip] counts the characters of a match still to drop. *)
Fixpoint replace_from (old new : string) (skip : nat) (s : string) : string :=
  match s with
  | EmptyString =>
      match old with EmptyString => new | _ => EmptyString end
  | String c s' =>
      match skip with
      | S k => replace_from old new k s'
      | O =>
          if startswith old s then
            match old with
            | EmptyString => new ++ String c (replace_from old new 0 s')
            | String _ _ => new ++ replace_from old new (String.length old - 1) s'
            end
          else String c (replace_from old new 0 s')
      end
  end.

Definition replace (old new s : string) : string := replace_from old new 0 s.

(** [s.lstrip()], [s.rstrip()], [s.strip()] *)
Fixpoint lstrip (s : string) : string :=
  match s with
  | EmptyString => EmptyString
  | String c s' => if isspace c then lstrip s' else s
  end.

Fixpoint rstrip (s : string) : string :=
  match s with
  | EmptyString => EmptyString
  | String c s' =>
      match rstrip s' with
      | EmptyString => if isspace c then EmptyString else String c EmptyString
      | r => String c r
      end
  end.

Definition strip (s : string) : string := rstrip (lstrip s).

(** [sep.join(parts)] *)
Fixpoint join (sep : string) (parts : list string) : string :=
  match parts with
  | [] => EmptyString
  | [p] => p
  | p :: ps => p ++ sep ++ join sep ps
  end.

(** Truth value of a string: empty is false. *)
Definition truthy (s : string) : bool :=
  match s with EmptyString => false | _ => true end.

End Py.

(** ** Exceptions and results *)

Inductive exn : Type :=
| IndexError
| KeyError (key : string)
| TypeError
| ServiceError (msg : string).   (* an [Exception] raised by an external service *)

Inductive result (A : Type) : Type :=
| Ok (a : A)
| Raise (e : exn).
Arguments Ok {A} a.
Arguments Raise {A} e.

Definition SENTINEL : string := "SEARCH:".

(** The first element of a list comprehension, [xs[0]]. *)
Definition first_item {A} (xs : list A) : result A :=
  match xs with
  | x :: _ => Ok x
  | [] => Raise IndexError
  end.

(** app.py, lines 199-200: the sentinel line and the query taken from it. *)
Definition sentinel_lines (full_response : string) : list string :=
  filter (Py.startswith SENTINEL) (Py.split Py.nl full_response).

Definition query_of_line (query_line : string) : string :=
  Py.strip (Py.replace SENTINEL "" query_line).

(** app.py, lines 198-200 and the [else] of line 209: [None] is "no query",
    the branch that performs no product search. *)
Definition extract_query (full_response : string) : result (option string) :=
  if Py.contains SENTINEL full_response then
    match first_item (sentinel_lines full_response) with
    | Ok query_line => Ok (Some (query_of_line query_line))
    | Raise e => Raise e
    end
  else Ok None.


(** ** Python values held in the spreadsheet records and JSON documents *)

Inductive pyval : Type :=
| PNone
| PBool (b : bool)
| PInt (z : Z)
| PStr (s : string)
| PList (items : list pyval)
| PDict (entries : list (string * pyval)).

(** A [dict] with string keys, in insertion order. *)
Definition dict : Type := list (string * pyval).

Fixpoint dict_lookup (d : dict) (key : string) : option pyval :=
  match d with
  | [] => None
  | (k, v) :: d' => if String.eqb k key then Some v else dict_lookup d' key
  end.

(** [d.get(key, default)] *)
Definition dict_get (d : dict) (key : string) (default : pyval) : pyval :=
  match dict_lookup d key with
  | Some v => v
  | None => default
  end.

(** [d[key]] *)
Definition dict_item (d : dict) (key : string) : result pyval :=
  match dict_lookup d key with
  | Some v => Ok v
  | None => Raise (KeyError key)
  end.

Module Render.

Local Open Scope string_scope.

Definition hex_digit (n : nat) : ascii :=
  if (n <? 10)%nat then ascii_of_nat (48 + n) else ascii_of_nat (87 + n).

Definition hex2 (c : ascii) : string :=
  let n := nat_of_ascii c in
  String (hex_digit (n / 16)) (String (hex_digit (n mod 16)) EmptyString).

Definition backslash : ascii := "092"%char.
Definition squote : ascii := "039"%char.
Definition esc (c : ascii) : string := String backslash (String c EmptyString).

(** [str(z)] for an [int]. *)
Definition int_str (z : Z) : string := NilZero.string_of_int (Z.to_int z).

(** json's [ESCAPE_ASCII]: everything outside space..~ is escaped, and so
    are the quote and the backslash. *)
Definition json_char (c : ascii) : string :=
  let n := nat_of_ascii c in
  if Ascii.eqb c Py.dquote then esc Py.dquote
  else if Ascii.eqb c backslash then esc backslash
  else if (n =? 8)%nat then esc "b"
  else if (n =? 12)%nat then esc "f"
  else if (n =? 10)%nat then esc "n"
  else if (n =? 13)%nat then esc "r"
  else if (n =? 9)%nat then esc "t"
  else if ((32 <=? n) && (n <=? 126))%nat then String c EmptyString
  else esc "u" ++ "00" ++ hex2 c.

Fixpoint json_chars (s : string) : string :=
  match s with
  | EmptyString => EmptyString
  | String c s' => json_char c ++ json_chars s'
  end.

Definition json_string (s : string) : string :=
  String Py.dquote (json_chars s) ++ String Py.dquote EmptyString.

Fixpoint spaces (n : nat) : string :=
  match n with O => EmptyString | S k => String " " (spaces k) end.

Definition newline_indent (indent level : nat) : string :=
  String Py.nl (spaces (indent * level)).

(** [json.dumps(v, indent=indent)] at nesting depth [level]. *)
Fixpoint json_dumps_at (indent level : nat) (v : pyval) : string :=
  match v with
  | PNone => "null"
  | PBool true => "true"
  | PBool false => "false"
  | PInt z => int_str z
  | PStr s => json_string s
  | PList [] => "[]"
  | PList items =>
      "[" ++ newline_indent indent (S level)
      ++ Py.join ("," ++ newline_indent indent (S level))
           (map (json_dumps_at indent (S level)) items)
      ++ newline_indent indent level ++ "]"
  | PDict [] => "{}"
  | PDict entries =>
      "{" ++ newline_indent indent (S level)
      ++ Py.join ("," ++ newline_indent indent (S level))
           (map (fun kv => json_string (fst kv) ++ ": "
                           ++ json_dumps_at indent (S level) (snd kv)) entries)
      ++ newline_indent indent level ++ "}"
  end.

Definition json_dumps (indent : nat) (v : pyval) : string :=
  json_dumps_at indent 0 v.

(** [repr] of a [str]: single quotes unless the text has one and no double
    quote; control and unprintable code points as [\xNN]. *)
Definition has_char (c : ascii) (s : string) : bool :=
  Py.contains (String c EmptyString) s.

Definition repr_char (quote c : ascii) : string :=
  let n := nat_of_ascii c in
  if Ascii.eqb c quote then esc quote
  else if Ascii.eqb c backslash then esc backslash
  else if (n =? 9)%nat then esc "t"
  else if (n =? 10)%nat then esc "n"
  else if (n =? 13)%nat then esc "r"
  else if ((n <? 32) || ((127 <=? n) && (n <=? 160)) || (n =? 173))%nat
       then esc "x" ++ hex2 c
  else String c EmptyString.

Fixpoint repr_chars (quote : ascii) (s : string) : string :=
  match s with
  | EmptyString => EmptyString
  | String c s' => repr_char quote c ++ repr_chars quote s'
  end.

Definition repr_str (s : string) : string :=
  let quote := if has_char squote s && negb (has_char Py.dquote s)
               then Py.dquote else squote in
  String quote (repr_chars quote s) ++ String quote EmptyString.

(** [repr(v)] *)
Fixpoint repr (v : pyval) : string :=
  match v with
  | PNone => "None"
  | PBool true => "True"
  | PBool false => "False"
  | PInt z => int_str z
  | PStr s => repr_str s
  | PList items => "[" ++ Py.join ", " (map repr items) ++ "]"
  | PDict entries =>
      "{" ++ Py.join ", "
               (map (fun kv => repr_str (fst kv) ++ ": " ++ repr (snd kv)) entries)
      ++ "}"
  end.

(** [str(v)], which is what an f-string field [{v}] renders. *)
Definition str (v : pyval) : string :=
  match v with
  | PStr s => s
  | _ => repr v
  end.

End Render.

(** ** The prompt builder (app.py, [construct_system_prompt]) *)

Module Prompt.

Local Open Scope string_scope.

Definition FALLBACK_PROMPT : string :=
  "You are a helpful dermatological assistant.".

(** [not skin_profile]: the profile is [None] or an empty [dict]. *)
Definition profile_missing (skin_profile : option dict) : bool :=
  match skin_profile with
  | None => true
  | Some [] => true
  | Some (_ :: _) => false
  end.

Fixpoint chars (s : string) : list string :=
  match s with
  | EmptyString => []
  | String c s' => String c EmptyString :: chars s'
  end.

Fixpoint all_str (items : list pyval) : result (list string) :=
  match items with
  | [] => Ok []
  | PStr s :: rest =>
      match all_str rest with
      | Ok ss => Ok (s :: ss)
      | Raise e => Raise e
      end
  | _ :: _ => Raise TypeError
  end.

(** [sep.join(v)] for a value [v]: a list of strings, a string (its
    characters) or a dict (its keys); anything else is a [TypeError]. *)
Definition join_value (sep : string) (v : pyval) : result string :=
  match v with
  | PList items =>
      match all_str items with
      | Ok ss => Ok (Py.join sep ss)
      | Raise e => Raise e
      end
  | PStr s => Ok (Py.join sep (chars s))
  | PDict entries => Ok (Py.join sep (map fst entries))
  | PNone | PBool _ | PInt _ => Raise TypeError
  end.

(** One bullet of the audit list (line 99). *)
Definition audit_line (item : dict) : result string :=
  match dict_item item "product_name" with
  | Raise e => Raise e
  | Ok name =>
      match dict_item item "status" with
      | Raise e => Raise e
      | Ok status =>
          match dict_item item "notes" with
          | Raise e => Raise e
          | Ok notes =>
              Ok ("- " ++ Render.str name ++ " (" ++ Render.str status
                  ++ "): " ++ Render.str notes)
          end
      end
  end.

Fixpoint audit_lines (items : list dict) : result (list string) :=
  match items with
  | [] => Ok []
  | item :: rest =>
      match audit_line item with
      | Raise e => Raise e
      | Ok l =>
          match audit_lines rest with
          | Raise e => Raise e
          | Ok ls => Ok (l :: ls)
          end
      end
  end.

(** The f-string of lines 101-128, one entry per source line. *)
Definition template (barrier meds profile_str avoid audit_str : string)
  : string :=
  Py.join (String Py.nl EmptyString)
    [ "";
      "    You are a highly personalized, localized Canadian Dermatological Assistant for Devashree.";
      "    Your goal is to analyze her skin issues, remember her history, and recommend budget-friendly products from Amazon Canada.";
      "    **GUARDRAILS:**";
      "    1.  **NEVER Refuse to Help:** If an issue seems severe, label it "
        ++ String Py.dquote "High Severity" ++ String Py.dquote
        " but always provide the best possible over-the-counter palliative care advice.";
      "    2.  **Amazon Canada Only:** All product searches must be for `amazon.ca`.";
      "    3.  **Budget-Friendly:** Prioritize products under $25 CAD.";
      "    4.  **Context is Key:** You MUST use the user's history below to inform your diagnosis.";
      "    ---";
      "    **DEEP CONTEXT: Devashree's Current Skin Profile**";
      "    -   **Barrier Status:** " ++ barrier;
      "    -   **Active Medications:** " ++ meds;
      "    -   **Detailed Concerns:**";
      "        ```json";
      "        " ++ profile_str;
      "        ```";
      "    -   **Ingredients to Avoid:** " ++ avoid;
      "    ---";
      "    **PRODUCT DATABASE: Routine Audit**";
      "    " ++ audit_str;
      "    ---";
      "    **YOUR PROTOCOL:**";
      "    1.  **Analyze Input:** Review the user's text or image.";
      "    2.  **Diagnose:** Identify the issue.";
      "    3.  **Cross-Reference:** Check against her `avoid_ingredients` and `routine_audit`.";
      "    4.  **Determine Action:** If a product is needed, formulate a search query on a new line formatted EXACTLY as `SEARCH: <product_type> <key_ingredient> under $25 CAD`.";
      "    5.  **Respond:** Provide your analysis and the search query if needed.";
      "    " ].

(** [construct_system_prompt(skin_profile, routine_audit)]. The audit is
    [None] when the profile could not be fetched; iterating over it then
    is a [TypeError], which the early return keeps out of reach. *)
Definition construct_system_prompt
    (skin_profile : option dict) (routine_audit : option (list dict))
  : result string :=
  if profile_missing skin_profile then Ok FALLBACK_PROMPT
  else
    let profile := match skin_profile with Some d => d | None => [] end in
    let profile_str :=
      Render.json_dumps 2 (dict_get profile "current_concerns" (PDict [])) in
    match routine_audit with
    | None => Raise TypeError
    | Some items =>
        match audit_lines items with
        | Raise e => Raise e
        | Ok ls =>
            let audit_str := Py.join (String Py.nl EmptyString) ls in
            let barrier :=
              Render.str (dict_get profile "barrier_status" (PStr "N/A")) in
            match join_value ", " (dict_get profile "active_medications" (PList [])) with
            | Raise e => Raise e
            | Ok meds =>
                match join_value ", " (dict_get profile "avoid_ingredients" (PList [])) with
                | Raise e => Raise e
                | Ok avoid =>
                    Ok (Py.strip (template barrier meds profile_str avoid audit_str))
                end
            end
        end
    end.

End Prompt.

(** ** Session, spreadsheet and external services *)

(** An entry of [st.session_state.messages]. *)
Record ChatMessage : Type := mkMsg { role : string; content : string }.

(** An entry of the history handed to the generation client. *)
Record GeminiMessage : Type := mkGemini { g_role : string; parts : list string }.

(** What one text turn hands to the client: [start_chat(history=...)] and
    then [send_message(message)]. *)
Record GenRequest : Type := mkReq { history : list GeminiMessage; message : string }.

(** The client sends the history followed by the message, as a user turn. *)
Definition delivered (r : GenRequest) : list GeminiMessage :=
  history r ++ [mkGemini "user" [message r]].

(** A row of the [interaction_logs] worksheet, in column order. *)
Record Row : Type := mkRow {
  row_id : string;
  created_at : string;
  user_id : string;
  input_type : string;
  user_query : string;
  ai_analysis : string;
  severity_score : Z;
  recommended_product_name : option string;
  recommended_product_link : option string
}.

(** Messages put on the page that report a failure or a search outcome. *)
Inductive ui_event : Type :=
| UiSearching (query : string)
| UiFound (url : string)
| UiNoProductLink
| UiSearchFailed (e : exn)
| UiLogFailed (e : exn)
| UiGeminiFailed (e : exn)
| UiImageFailed (e : exn).

Record World : Type := mkWorld {
  messages : list ChatMessage;      (* st.session_state.messages *)
  log_rows : list Row;              (* the interaction_logs worksheet *)
  ui : list ui_event;
  gen_requests : list GenRequest;   (* calls made to the generation client *)
  searches : list (string * nat)    (* calls made to the search provider *)
}.

(** An uploaded image. *)
Record Upload : Type := mkUpload { file_name : string; mime_type : string; data : string }.

(** The behaviour of the outside world during one run of the script. A
    stream yields its chunks and then ends or fails. The worksheet append
    either adds the row at the end or fails and leaves the sheet as it is. *)
Record Env : Type := mkEnv {
  now_str : string;
  now_iso : string;
  send_message : GenRequest -> list string * option exn;
  generate_content : string -> string -> Upload -> result string;
  search : string -> nat -> result (list string);
  append_fault : list Row -> Row -> option exn
}.

(** ** The script's monad: state, and exceptions that keep the state *)

Definition M (A : Type) : Type := World -> result A * World.

Definition ret {A} (a : A) : M A := fun w => (Ok a, w).

Definition bind {A B} (m : M A) (k : A -> M B) : M B :=
  fun w => match m w with
           | (Ok a, w') => k a w'
           | (Raise e, w') => (Raise e, w')
           end.

Definition lift {A} (r : result A) : M A := fun w => (r, w).

(** [try: body except Exception as e: handler(e)] *)
Definition try_except {A} (body : M A) (handler : exn -> M A) : M A :=
  fun w => match body w with
           | (Ok a, w') => (Ok a, w')
           | (Raise e, w') => handler e w'
           end.

Notation "x <- m ;; k" := (bind m (fun x => k))
  (at level 61, m at next level, right associativity).
Notation "m ;;; k" := (bind m (fun _ => k))
  (at level 61, right associativity).

Definition show (ev : ui_event) : M unit :=
  fun w => (Ok tt, mkWorld (messages w) (log_rows w) (ui w ++ [ev])
                           (gen_requests w) (searches w)).

Definition append_message (m : ChatMessage) : M unit :=
  fun w => (Ok tt, mkWorld (messages w ++ [m]) (log_rows w) (ui w)
                           (gen_requests w) (searches w)).

Definition get_messages : M (list ChatMessage) :=
  fun w => (Ok (messages w), w).

Definition USER_ID : string := "12345678-1234-1234-1234-1234567890ab".
Definition GEMINI_FALLBACK : string := "Sorry, I encountered an error.".

(** Line 183 as a step of the script. *)
Definition prompt_step (profile_data : option dict)
    (audit_data : option (list dict)) : M string :=
  lift (Prompt.construct_system_prompt profile_data audit_data).

Section Script.

Variable env : Env.

(** [logs_ws.append_row(new_row)] *)
Definition append_row (new_row : Row) : M unit :=
  fun w => match append_fault env (log_rows w) new_row with
           | None => (Ok tt, mkWorld (messages w) (log_rows w ++ [new_row]) (ui w)
                                     (gen_requests w) (searches w))
           | Some e => (Raise e, w)
           end.

(** app.py, [log_interaction] *)
Definition log_interaction (uid itype query analysis : string) (severity : Z)
    (product_name product_link : option string) : M unit :=
  try_except
    (append_row (mkRow (now_str env) (now_iso env) uid itype query analysis
                       severity product_name product_link))
    (fun e => show (UiLogFailed e)).

(** [list(search(full_query, num_results=3, lang="en"))] *)
Definition call_search (full_query : string) (num_results : nat)
  : M (list string) :=
  fun w => (search env full_query num_results,
            mkWorld (messages w) (log_rows w) (ui w) (gen_requests w)
                    (searches w ++ [(full_query, num_results)])).

(** The test of line 137. *)
Definition is_product_link (url : string) : bool :=
  Py.contains "amazon.ca" url && Py.contains "/dp/" url.

(** The [for] loop of lines 136-141. *)
Fixpoint first_product_link (search_results : list string) : M (option string) :=
  match search_results with
  | [] => show UiNoProductLink ;;; ret None
  | url :: rest =>
      if is_product_link url then show (UiFound url) ;;; ret (Some url)
      else first_product_link rest
  end.

(** app.py, [search_amazon] *)
Definition search_amazon (query : string) : M (option string) :=
  try_except
    (let full_query := (query ++ " site:amazon.ca")%string in
     show (UiSearching query) ;;;
     search_results <- call_search full_query 3 ;;
     first_product_link search_results)
    (fun e => show (UiSearchFailed e) ;;; ret None).

(** Line 185: the history rebuilt from the whole session transcript. *)
Definition to_gemini (msg : ChatMessage) : GeminiMessage :=
  mkGemini (if String.eqb (role msg) "user" then "user" else "model")
           [content msg].

(** Lines 188-193: open the chat on the history, send the prompt and
    accumulate the streamed chunks. *)
Definition stream_response (gemini_history : list GeminiMessage)
    (prompt : string) : M string :=
  fun w =>
    let req := mkReq gemini_history prompt in
    let w' := mkWorld (messages w) (log_rows w) (ui w)
                      (gen_requests w ++ [req]) (searches w) in
    match send_message env req with
    | (chunks, None) => (Ok (String.concat "" chunks), w')
    | (_, Some e) => (Raise e, w')
    end.

(** [if product_link:] *)
Definition link_found (product_link : option string) : option string :=
  match product_link with
  | Some url => if Py.truthy url then Some url else None
  | None => None
  end.

(** Lines 198-210: the search and the log entry that follow the answer. *)
Definition handle_response (prompt full_response : string) : M unit :=
  q <- lift (extract_query full_response) ;;
  match q with
  | Some search_query =>
      product_link <- search_amazon search_query ;;
      match link_found product_link with
      | Some url =>
          append_message
            (mkMsg "assistant"
               ("Here is a recommended product: [View on Amazon.ca]("
                ++ url ++ ")")%string) ;;;
          log_interaction USER_ID "text" prompt full_response 5
                          (Some search_query) product_link
      | None =>
          log_interaction USER_ID "text" prompt full_response 5
                          (Some search_query) None
      end
  | None =>
      log_interaction USER_ID "text" prompt full_response 3 None None
  end.

(** Lines 175-212: one text turn. *)
Definition chat_turn (profile_data : option dict)
    (audit_data : option (list dict)) (prompt : string) : M unit :=
  append_message (mkMsg "user" prompt) ;;;
  system_prompt <- prompt_step profile_data audit_data ;;
  session <- get_messages ;;
  let gemini_history := map to_gemini session in
  full_response <-
    try_except (stream_response gemini_history prompt)
               (fun e => show (UiGeminiFailed e) ;;; ret GEMINI_FALLBACK) ;;
  handle_response prompt full_response ;;;
  append_message (mkMsg "assistant" full_response).

(** Lines 219-232: one image turn. The rerun that ends a successful
    analysis restarts the script; the turn is over at that point. *)
Definition analyze_image (profile_data : option dict)
    (audit_data : option (list dict)) (uploaded_file : Upload) : M unit :=
  system_prompt <- prompt_step profile_data audit_data ;;
  try_except
    (analysis_result <-
       lift (generate_content env system_prompt
               "Analyze this image of my skin and tell me what you see."
               uploaded_file) ;;
     append_message (mkMsg "user" (" (Image: " ++ file_name uploaded_file ++ ")")%string) ;;;
     append_message (mkMsg "assistant" analysis_result))
    (fun e => show (UiImageFailed e)).

End Script.

(** ** The handlers in one piece

    The same steps written without the monad, for the statements below. *)

(** The row [log_interaction] builds from its arguments. *)
Definition new_row (env : Env) (uid itype query analysis : string)
    (severity : Z) (product_name product_link : option string) : Row :=
  mkRow (now_str env) (now_iso env) uid itype query analysis severity
        product_name product_link.

(** The world after the worksheet took, or refused, a row. *)
Definition logged (env : Env) (r : Row) (w : World) : World :=
  match append_fault env (log_rows w) r with
  | None => mkWorld (messages w) (log_rows w ++ [r]) (ui w)
                    (gen_requests w) (searches w)
  | Some e => mkWorld (messages w) (log_rows w) (ui w ++ [UiLogFailed e])
                      (gen_requests w) (searches w)
  end.

(** The rows of the sheet after an append that may have been refused. *)
Definition rows_after (env : Env) (r : Row) (rows : list Row) : list Row :=
  match append_fault env rows r with
  | None => rows ++ [r]
  | Some _ => rows
  end.

(** What [search_amazon] returns for a given answer of the provider. *)
Definition product_of (answer : result (list string)) : option string :=
  match answer with
  | Ok urls => find is_product_link urls
  | Raise _ => None
  end.

Definition full_query_of (query : string) : string :=
  (query ++ " site:amazon.ca")%string.

Definition search_ui (query : string) (answer : result (list string))
  : list ui_event :=
  UiSearching query ::
  match answer with
  | Ok urls => [match find is_product_link urls with
                | Some url => UiFound url
                | None => UiNoProductLink
                end]
  | Raise e => [UiSearchFailed e]
  end.

(** World updates, named. *)
Definition add_message (m : ChatMessage) (w : World) : World :=
  mkWorld (messages w ++ [m]) (log_rows w) (ui w) (gen_requests w) (searches w).
Definition add_ui (evs : list ui_event) (w : World) : World :=
  mkWorld (messages w) (log_rows w) (ui w ++ evs) (gen_requests w) (searches w).
Definition add_request (r : GenRequest) (w : World) : World :=
  mkWorld (messages w) (log_rows w) (ui w) (gen_requests w ++ [r]) (searches w).
Definition add_search (q : string * nat) (w : World) : World :=
  mkWorld (messages w) (log_rows w) (ui w) (gen_requests w) (searches w ++ [q]).

Definition product_message (url : string) : ChatMessage :=
  mkMsg "assistant"
        ("Here is a recommended product: [View on Amazon.ca](" ++ url ++ ")")%string.

(** Lines 198-210 in one piece: the outcome of the steps after the answer. *)
Definition after_response (env : Env) (prompt full_response : string)
    (w : World) : result unit * World :=
  match extract_query full_response with
  | Raise e => (Raise e, w)
  | Ok None =>
      (Ok tt, logged env (new_row env USER_ID "text" prompt full_response 3
                                  None None) w)
  | Ok (Some q) =>
      let answer := search env (full_query_of q) 3 in
      let w1 := add_search (full_query_of q, 3) (add_ui (search_ui q answer) w) in
      match product_of answer with
      | Some url =>
          (Ok tt, logged env (new_row env USER_ID "text" prompt full_response 5
                                      (Some q) (Some url))
                         (add_message (product_message url) w1))
      | None =>
          (Ok tt, logged env (new_row env USER_ID "text" prompt full_response 5
                                      (Some q) None) w1)
      end
  end.

(** The answer of a text turn and what the page shows for it. *)
Definition answer_of (reply : list string * option exn) : string :=
  match reply with
  | (chunks, None) => String.concat "" chunks
  | (_, Some _) => GEMINI_FALLBACK
  end.

Definition answer_ui (reply : list string * option exn) : list ui_event :=
  match reply with
  | (_, None) => []
  | (_, Some e) => [UiGeminiFailed e]
  end.

(** The request a text turn makes from the session as it stood before. *)
Definition turn_request (session : list ChatMessage) (prompt : string)
  : GenRequest :=
  mkReq (map to_gemini (session ++ [mkMsg "user" prompt])) prompt.

(** Lines 175-212 in one piece. *)
Definition after_turn (env : Env) (profile_data : option dict)
    (audit_data : option (list dict)) (prompt : string) (w : World)
  : result unit * World :=
  let w1 := add_message (mkMsg "user" prompt) w in
  match Prompt.construct_system_prompt profile_data audit_data with
  | Raise e => (Raise e, w1)
  | Ok _ =>
      let req := turn_request (messages w) prompt in
      let reply := send_message env req in
      let w2 := add_ui (answer_ui reply) (add_request req w1) in
      match after_response env prompt (answer_of reply) w2 with
      | (Ok _, w3) => (Ok tt, add_message (mkMsg "assistant" (answer_of reply)) w3)
      | (Raise e, w3) => (Raise e, w3)
      end
  end.

(** The severity, product name and product link a text turn logs for an
    answer, as lines 198-210 choose them. *)
Definition log_fields (env : Env) (full_response : string)
  : option (Z * option string * option string) :=
  match extract_query full_response with
  | Raise _ => None
  | Ok None => Some (3%Z, None, None)
  | Ok (Some q) => Some (5%Z, Some q, product_of (search env (full_query_of q) 3))
  end.

Definition turn_answer (env : Env) (w : World) (prompt : string) : string :=
  answer_of (send_message env (turn_request (messages w) prompt)).

(** The one row a text turn hands to [log_interaction], if it gets there. *)
Definition turn_row (env : Env) (w : World) (prompt : string) : option Row :=
  match log_fields env (turn_answer env w prompt) with
  | Some (sev, pn, pl) =>
      Some (new_row env USER_ID "text" prompt (turn_answer env w prompt) sev pn pl)
  | None => None
  end.

Inductive turn : Type :=
| TextTurn (prompt : string)
| ImageTurn (uploaded_file : Upload).

Definition run_turn (env : Env) (p : option dict) (a : option (list dict))
    (t : turn) : M unit :=
  match t with
  | TextTurn prompt => chat_turn env p a prompt
  | ImageTurn uploaded_file => analyze_image env p a uploaded_file
  end.

Definition with_append_fault (env : Env)
    (fault : list Row -> Row -> option exn) : Env :=
  mkEnv (now_str env) (now_iso env) (send_message env) (generate_content env)
        (search env) fault.

(** The claim of C10 about one row, given the answer of its turn. *)
Definition row_as_logged (full_response : string) (r : Row) : Prop :=
  ai_analysis r = full_response /\
  severity_score r = (if Py.contains SENTINEL full_response then 5 else 3)%Z /\
  match recommended_product_name r with
  | Some name => extract_query full_response = Ok (Some name)
  | None => Py.contains SENTINEL full_response = false
  end.

(** ** The wording of the specification *)

(** The query as the specification words it: the one leading token is cut
    off the line and the rest is stripped. *)
Fixpoint drop (n : nat) (s : string) : string :=
  match n, s with
  | S k, String _ s' => drop k s'
  | _, _ => s
  end.

Definition remove_prefix (p s : string) : string :=
  if Py.startswith p s then drop (String.length p) s else s.

Definition spec_query_of_line (query_line : string) : string :=
  Py.strip (remove_prefix SENTINEL query_line).

(** The parts of a URL, as the specification speaks of them: the host
    stands between the scheme and the first [/], [?] or [#]; the path runs
    from there to the first [?] or [#]. *)
Fixpoint after_first (sep s : string) : option string :=
  match s with
  | EmptyString => None
  | String _ s' =>
      if Py.startswith sep s then Some (drop (String.length sep) s)
      else after_first sep s'
  end.

Fixpoint take_until (stop : ascii -> bool) (s : string) : string :=
  match s with
  | EmptyString => EmptyString
  | String c s' => if stop c then EmptyString else String c (take_until stop s')
  end.

Fixpoint drop_until (stop : ascii -> bool) (s : string) : string :=
  match s with
  | EmptyString => EmptyString
  | String c s' => if stop c then s else drop_until stop s'
  end.

Definition ends_host (c : ascii) : bool :=
  Ascii.eqb c "/" || Ascii.eqb c "?" || Ascii.eqb c "#".
Definition ends_path (c : ascii) : bool :=
  Ascii.eqb c "?" || Ascii.eqb c "#".

Definition url_rest (url : string) : string :=
  match after_first "://" url with
  | Some rest => rest
  | None => url
  end.
Definition url_host (url : string) : string := take_until ends_host (url_rest url).
Definition url_path (url : string) : string :=
  take_until ends_path (drop_until ends_host (url_rest url)).

Fixpoint endswith (suffix s : string) : bool :=
  String.eqb suffix s ||
  match s with
  | EmptyString => false
  | String _ s' => endswith suffix s'
  end.

(** The test the specification describes: the retailer's domain (or a
    subdomain of it) and a product-detail path. *)
Definition spec_is_product_link (url : string) : bool :=
  (String.eqb (url_host url) "amazon.ca" || endswith ".amazon.ca" (url_host url))
  && Py.contains "/dp/" (url_path url).

Definition spec_product_of (answer : result (list string)) : option string :=
  match answer with
  | Ok urls => find spec_is_product_link (firstn 3 urls)
  | Raise _ => None
  end.

(** The records of the data model: a profile whose medication and
    ingredient fields are sequences of strings, and audit entries that have
    a product name, a status and notes. *)
Definition is_str (v : pyval) : bool :=
  match v with PStr _ => true | _ => false end.

Definition str_sequence (v : pyval) : bool :=
  match v with PList items => forallb is_str items | _ => false end.

Definition has_key (d : dict) (key : string) : bool :=
  match dict_lookup d key with Some _ => true | None => false end.

Definition is_user_profile (d : dict) : bool :=
  str_sequence (dict_get d "active_medications" (PList []))
  && str_sequence (dict_get d "avoid_ingredients" (PList [])).

Definition is_audit_entry (item : dict) : bool :=
  has_key item "product_name" && has_key item "status" && has_key item "notes".

(** ** Fixtures *)

(** An outside world that always answers the same way. *)
Definition stub_env (reply : list string * option exn)
    (answer : result (list string)) (fault : option exn) : Env :=
  mkEnv "2024-01-15 10:00:00.000000" "2024-01-15T10:00:00.000000"
        (fun _ => reply)
        (fun _ _ _ => Ok "The skin looks mildly irritated.")
        (fun _ _ => answer)
        (fun _ _ => fault).

Definition empty_world : World := mkWorld [] [] [] [] [].

Definition midline_text : string := "You could SEARCH: online for a cream".
Definition two_token_line : string := "SEARCH: cleanser SEARCH: gentle".

Definition lookalike_url : string := "https://deals.example.com/dp/amazon.ca-offers".

Definition refusing_sheet : Env :=
  stub_env (["Use a gentle cleanser."], None) (Ok [])
           (Some (ServiceError "quota exceeded")).
Definition working_sheet : Env :=
  stub_env (["Use a gentle cleanser."], None) (Ok []) None.
Definition cheek_photo : Upload := mkUpload "cheek.png" "image/png" "PNG".

Definition earlier_session : list ChatMessage :=
  [mkMsg "user" "hello"; mkMsg "assistant" "Hi, how can I help?"].

Definition broken_stream : Env :=
  stub_env (["Your skin "], Some (ServiceError "connection reset")) (Ok []) None.

Definition three_line_text : string :=
  ("foo" ++ String Py.nl "SEARCH: cream salicylic acid under $25 CAD"
   ++ String Py.nl "bar")%string.

Definition two_sentinel_text : string :=
  ("SEARCH: first query" ++ String Py.nl "SEARCH: second query")%string.

Definition moisturizer_answer : list string :=
  ["Your barrier looks irritated. "; "Keep the routine gentle.";
   String Py.nl "SEARCH: gentle moisturizer ceramide under $25 CAD"].

Definition moisturizer_url : string := "https://www.amazon.ca/dp/B07XYZ1234".

Definition finds_product : Env :=
  stub_env (moisturizer_answer, None) (Ok [moisturizer_url]) None.
Definition finds_nothing : Env :=
  stub_env (moisturizer_answer, None) (Ok ["https://www.amazon.ca/s?k=cream"]) None.

(** The records seed_data.py writes, as [get_user_data] returns them. *)
Definition seed_profile : dict :=
  [("user_id", PStr USER_ID);
   ("barrier_status", PStr "Compromised");
   ("current_concerns",
    PDict [("diagnosis", PStr "Stress-Induced Inflammatory Acne...");
           ("triggers", PList [PStr "Environmental Shock"; PStr "..."]);
           ("...", PStr "...")]);
   ("active_medications", PList [PStr "CNN 50"]);
   ("avoid_ingredients", PList [PStr "SA Cleansers"])].

Definition seed_audit : list dict :=
  [[("user_id", PStr USER_ID);
    ("product_name", PStr "Micro-Peeling gels");
    ("category", PStr "Cleanser");
    ("status", PStr "Unsafe");
    ("notes", PStr "Compromises barrier.")]].

(** ** Reading the profile (app.py, [get_user_data])

    One evaluation of the function's body, which is what a cache miss runs.
    The worksheets are read through [get_all_records], which gives every
    row of a sheet as a record keyed by the sheet's header. *)

(** Binding in [result]: the first exception ends the [try] body. *)
Definition and_then {A B} (r : result A) (k : A -> result B) : result B :=
  match r with
  | Ok a => k a
  | Raise e => Raise e
  end.

Notation "x <== r ;; k" := (and_then r (fun x => k))
  (at level 61, r at next level, right associativity).

(** [del d[key]], if the key is there. *)
Definition dict_remove (d : dict) (key : string) : dict :=
  filter (fun kv => negb (String.eqb (fst kv) key)) d.

(** [d.pop(key, default)]: the value and the dict without the key. *)
Definition dict_pop (d : dict) (key : string) (default : pyval) : pyval * dict :=
  (dict_get d key default, dict_remove d key).

(** [d[key] = v]: in place when the key is there, at the end otherwise. *)
Fixpoint dict_set (d : dict) (key : string) (v : pyval) : dict :=
  match d with
  | [] => [(key, v)]
  | (k, x) :: d' =>
      if String.eqb k key then (k, v) :: d' else (k, x) :: dict_set d' key v
  end.

(** [df['user_id'] == user_id] on one row. *)
Definition is_user (uid : string) (r : dict) : bool :=
  match dict_lookup r "user_id" with
  | Some (PStr s) => String.eqb s uid
  | _ => false
  end.

(** [df[df['user_id'] == user_id]]: a frame built from no records has no
    columns, and a missing column is a [KeyError]. *)
Definition select_user (uid : string) (records : list dict) : result (list dict) :=
  if existsb (fun r => has_key r "user_id") records
  then Ok (filter (is_user uid) records)
  else Raise (KeyError "user_id").

(** What the page shows when the fetch fails (lines 69-70). *)
Inductive fetch_event : Type :=
| UiFetchFailed (e : exn)
| UiShareHint.

Section Fetch.

Variable get_all_records : string -> result (list dict).
Variable json_loads : pyval -> result pyval.

(** Lines 61-63: [d[field] = json.loads(d.pop(column, default))]. *)
Definition decode_field (d : dict) (column field default : string) : result dict :=
  let (raw, d') := dict_pop d column (PStr default) in
  v <== json_loads raw ;;
  Ok (dict_set d' field v).

(** Lines 49-67: the body of the [try]. *)
Definition fetch_user_data (uid : string) : result (dict * list dict) :=
  profile_records <== get_all_records "skin_profile" ;;
  profile_rows <== select_user uid profile_records ;;
  user_profile_series <== first_item profile_rows ;;
  audit_records <== get_all_records "routine_audit" ;;
  user_audit <== select_user uid audit_records ;;
  d1 <== decode_field user_profile_series
           "current_concerns_json" "current_concerns" "{}" ;;
  d2 <== decode_field d1 "active_medications_json" "active_medications" "[]" ;;
  d3 <== decode_field d2 "avoid_ingredients_json" "avoid_ingredients" "[]" ;;
  Ok (d3, user_audit).

(** app.py, [get_user_data]: the pair it returns and what it shows. *)
Definition get_user_data (uid : string)
  : (option dict * option (list dict)) * list fetch_event :=
  match fetch_user_data uid with
  | Ok (profile_data, audit_data) => ((Some profile_data, Some audit_data), [])
  | Raise e => ((None, None), [UiFetchFailed e; UiShareHint])
  end.

(** One run of the script, top to bottom: the sidebar fetches the profile
    (line 155), then the chat input or the image button, if one was used,
    is handled with that profile. *)
Definition script_run (env : Env) (input : option turn) : M unit :=
  let (profile_data, audit_data) := fst (get_user_data USER_ID) in
  match input with
  | Some t => run_turn env profile_data audit_data t
  | None => ret tt
  end.

(** A session: the script runs once per input; the transcript and the
    sheet carry over, also after a run that ended in an exception. *)
Fixpoint run_session (env : Env) (inputs : list turn) (w : World) : World :=
  match inputs with
  | [] => w
  | t :: rest => run_session env rest (snd (script_run env (Some t) w))
  end.

End Fetch.

(** ** Conditions used in the statements *)

(** The characters of a string. *)
Fixpoint chars_of (s : string) : list ascii :=
  match s with
  | EmptyString => []
  | String c s' => c :: chars_of s'
  end.

(** Every link in the log was announced in the transcript. *)
Definition links_announced (w : World) : Prop :=
  forall r url,
    In r (log_rows w) -> recommended_product_link r = Some url ->
    In (product_message url) (messages w).

(** A row as a text turn writes it. *)
Definition text_row (r : Row) : Prop :=
  user_id r = USER_ID /\ input_type r = "text" /\
  ((severity_score r = 3%Z /\ recommended_product_name r = None /\
    recommended_product_link r = None) \/
   (severity_score r = 5%Z /\ recommended_product_name r <> None /\
    forall url, recommended_product_link r = Some url ->
                is_product_link url = true)).

Fixpoint count_text (inputs : list turn) : nat :=
  match inputs with
  | [] => 0
  | TextTurn _ :: rest => S (count_text rest)
  | ImageTurn _ :: rest => count_text rest
  end.

(** What one turn adds to the transcript, whatever its outcome. *)
Definition turn_messages (env : Env) (p : option dict) (a : option (list dict))
    (t : turn) (w : World) : list ChatMessage :=
  match Prompt.construct_system_prompt p a with
  | Raise _ =>
      match t with
      | TextTurn prompt => [mkMsg "user" prompt]
      | ImageTurn _ => []
      end
  | Ok sp =>
      match t with
      | TextTurn prompt =>
          mkMsg "user" prompt ::
          match log_fields env (turn_answer env w prompt) with
          | Some (_, _, Some url) =>
              [product_message url; mkMsg "assistant" (turn_answer env w prompt)]
          | Some (_, _, None) => [mkMsg "assistant" (turn_answer env w prompt)]
          | None => []
          end
      | ImageTurn uploaded_file =>
          match generate_content env sp
                  "Analyze this image of my skin and tell me what you see."
                  uploaded_file with
          | Ok analysis =>
              [mkMsg "user" (" (Image: " ++ file_name uploaded_file ++ ")")%string;
               mkMsg "assistant" analysis]
          | Raise _ => []
          end
      end
  end.

(** The rows one turn adds to the log. *)
Definition turn_rows (env : Env) (p : option dict) (a : option (list dict))
    (t : turn) (w : World) : list Row :=
  match t with
  | TextTurn prompt =>
      match Prompt.construct_system_prompt p a, turn_row env w prompt with
      | Ok _, Some r =>
          match append_fault env (log_rows w) r with
          | None => [r]
          | Some _ => []
          end
      | _, _ => []
      end
  | ImageTurn _ => []
  end.

(** ** More fixtures *)

(** A profile sheet and an audit sheet as seed_data.py lays them out, with
    the JSON columns still text. *)
Definition sheet_profile_row : dict :=
  [("user_id", PStr USER_ID);
   ("barrier_status", PStr "Compromised");
   ("current_concerns_json", PStr "{}");
   ("active_medications_json", PStr "[]");
   ("avoid_ingredients_json", PStr "[]")].

Definition other_user_row : dict :=
  [("user_id", PStr "someone-else");
   ("product_name", PStr "Toner");
   ("category", PStr "Toner");
   ("status", PStr "Safe");
   ("notes", PStr "Fine.")].

Definition stub_sheets (audit : list dict) (name : string) : result (list dict) :=
  if String.eqb name "skin_profile" then Ok [sheet_profile_row]
  else if String.eqb name "routine_audit" then Ok audit
  else Raise (ServiceError "WorksheetNotFound").

(** A decoder that knows the two default texts. *)
Definition stub_loads (v : pyval) : result pyval :=
  match v with
  | PStr s =>
      if String.eqb s "{}" then Ok (PDict [])
      else if String.eqb s "[]" then Ok (PList [])
      else Raise (ServiceError "JSONDecodeError")
  | _ => Raise TypeError
  end.

Definition no_sheets (name : string) : result (list dict) :=
  Raise (ServiceError "APIError").

(** The profile and audit a run decodes from the stub sheets. *)
Definition stub_fetch (audit : list dict) : dict * list dict :=
  match fetch_user_data (stub_sheets audit) stub_loads USER_ID with
  | Ok pa => pa
  | Raise _ => ([], [])
  end.

Definition user_or_assistant (m : ChatMessage) : Prop :=
  role m = "user" \/ role m = "assistant".

Definition three_inputs : list turn :=
  [TextTurn "my cheeks are red"; ImageTurn cheek_photo;
   TextTurn "anything for the itch?"].

(** The prompt built from the seeded records. *)
Definition seed_prompt : string :=
  match Prompt.construct_system_prompt (Some seed_profile) (Some seed_audit) with
  | Ok s => s
  | Raise _ => EmptyString
  end.

(** * Properties *)

Ltac unfold_script :=
  unfold chat_turn, analyze_image, prompt_step, handle_response, search_amazon,
    log_interaction, stream_response, call_search, append_row, link_found,
    try_except, bind, lift, ret, show, append_message, get_messages in *.

(** ** Strings *)

Lemma startswith_empty_r (p : string) :
  Py.startswith p EmptyString = true -> p = EmptyString.
Proof. destruct p; simpl; [reflexivity | discriminate]. Qed.

Lemma contains_empty (s : string) : Py.contains EmptyString s = true.
Proof. destruct s; reflexivity. Qed.

Lemma startswith_app (p s rest : string) :
  Py.startswith p s = true -> Py.startswith p (s ++ rest) = true.
Proof.
  revert s; induction p as [|a p IH]; intros s H; [reflexivity|].
  destruct s as [|b s]; simpl in *; [discriminate|].
  apply andb_true_iff in H as [Hab Hp].
  rewrite Hab; simpl; auto.
Qed.

Lemma startswith_self_app (p rest : string) :
  Py.startswith p (p ++ rest) = true.
Proof.
  induction p as [|a p IH]; simpl; [reflexivity|].
  rewrite Ascii.eqb_refl; exact IH.
Qed.

Lemma startswith_inv (p s : string) :
  Py.startswith p s = true -> exists rest, s = (p ++ rest)%string.
Proof.
  revert s; induction p as [|a p IH]; intros s H.
  - exists s; reflexivity.
  - destruct s as [|b s]; simpl in H; [discriminate|].
    apply andb_true_iff in H as [Hab Hp].
    apply Ascii.eqb_eq in Hab; subst b.
    destruct (IH _ Hp) as [rest ->]; exists rest; reflexivity.
Qed.

(** The first piece of a split is a prefix of the text. *)
Lemma split_head_prefix (sep : ascii) (t l : string) (ls : list string) :
  Py.split sep t = l :: ls -> exists rest, t = (l ++ rest)%string.
Proof.
  revert l ls; induction t as [|c t IH]; intros l ls H; simpl in H.
  - inversion H; subst; exists EmptyString; reflexivity.
  - destruct (Ascii.eqb c sep).
    + inversion H; subst; exists (String c t); reflexivity.
    + destruct (Py.split sep t) as [|l0 ls0] eqn:E.
      * inversion H; subst.
        destruct t; simpl in E; [discriminate|].
        destruct (Ascii.eqb a sep); [discriminate|].
        destruct (Py.split sep t); discriminate.
      * inversion H; subst.
        destruct (IH _ _ eq_refl) as [rest ->].
        exists rest; reflexivity.
Qed.

Lemma split_nonempty (sep : ascii) (t : string) : Py.split sep t <> [].
Proof.
  destruct t as [|c t]; simpl; [discriminate|].
  destruct (Ascii.eqb c sep); [discriminate|].
  destruct (Py.split sep t); discriminate.
Qed.

(** A line that starts with [p] puts [p] somewhere in the text. *)
Lemma line_startswith_contains (p : string) (sep : ascii) (t l : string) :
  In l (Py.split sep t) -> Py.startswith p l = true -> Py.contains p t = true.
Proof.
  revert l; induction t as [|c t IH]; intros l Hin Hp; simpl in Hin.
  - destruct Hin as [<-|[]]. simpl. exact Hp.
  - simpl. apply orb_true_iff.
    destruct (Ascii.eqb c sep).
    + destruct Hin as [<-|Hin].
      * apply startswith_empty_r in Hp; subst p. left; reflexivity.
      * right; eapply IH; eauto.
    + destruct (Py.split sep t) as [|l0 ls0] eqn:E.
      * destruct (split_nonempty _ _ E).
      * destruct Hin as [<-|Hin].
        -- left. destruct (split_head_prefix _ _ E) as [rest ->].
           change (String c (l0 ++ rest)) with (String c l0 ++ rest)%string.
           apply startswith_app; exact Hp.
        -- right; eapply IH; eauto. right; exact Hin.
Qed.

Lemma sentinel_lines_contains (t l : string) (ls : list string) :
  sentinel_lines t = l :: ls -> Py.contains SENTINEL t = true.
Proof.
  intros H.
  assert (Hin : In l (sentinel_lines t)) by (rewrite H; left; reflexivity).
  apply filter_In in Hin as [Hin Hp].
  eapply line_startswith_contains; eauto.
Qed.

(** The three outcomes of the parsing step. *)
Lemma extract_query_cases (t : string) :
  extract_query t =
    match sentinel_lines t with
    | l :: _ => Ok (Some (query_of_line l))
    | [] => if Py.contains SENTINEL t then Raise IndexError else Ok None
    end.
Proof.
  unfold extract_query.
  destruct (sentinel_lines t) as [|l ls] eqn:E; simpl.
  - destruct (Py.contains SENTINEL t); reflexivity.
  - rewrite (sentinel_lines_contains _ E). reflexivity.
Qed.

Lemma extract_query_absent (t : string) :
  Py.contains SENTINEL t = false -> extract_query t = Ok None.
Proof. intros H; unfold extract_query; rewrite H; reflexivity. Qed.

Lemma extract_query_first_line (t l : string) (ls : list string) :
  sentinel_lines t = l :: ls -> extract_query t = Ok (Some (query_of_line l)).
Proof. intros H; rewrite extract_query_cases, H; reflexivity. Qed.

(** [replace] and a leading occurrence. *)

Lemma replace_from_skip (old new q rest : string) :
  Py.replace_from old new (String.length q) (q ++ rest)
  = Py.replace_from old new 0 rest.
Proof.
  induction q as [|c q IH]; simpl; [reflexivity | exact IH].
Qed.

Lemma replace_absent (old new s : string) :
  old <> EmptyString -> Py.contains old s = false -> Py.replace old new s = s.
Proof.
  intros Hold; unfold Py.replace.
  induction s as [|c s IH]; intros H; simpl in *.
  - destruct old; [congruence | reflexivity].
  - apply orb_false_iff in H as [H1 H2].
    destruct old as [|a old]; [congruence|].
    change (match s with
            | EmptyString => false
            | String b s' => (a =? c)%char && Py.startswith old s
            end) with (Py.startswith (String a old) (String c s)) in *.
    simpl in H1. simpl. rewrite H1. f_equal. apply IH. exact H2.
Qed.

Lemma replace_leading (a : ascii) (old new rest : string) :
  Py.replace (String a old) new (String a old ++ rest)
  = (new ++ Py.replace (String a old) new rest)%string.
Proof.
  unfold Py.replace.
  change (String a old ++ rest)%string with (String a (old ++ rest)).
  cbn [Py.replace_from].
  change (Py.startswith (String a old) (String a (old ++ rest)))
    with (Py.startswith (String a old) (String a old ++ rest)).
  rewrite startswith_self_app.
  replace (String.length (String a old) - 1) with (String.length old)
    by (cbn [String.length]; lia).
  rewrite replace_from_skip. reflexivity.
Qed.

Lemma drop_app (p rest : string) : drop (String.length p) (p ++ rest) = rest.
Proof. induction p; simpl; auto. Qed.

(** On a sentinel line with no second token, code and specification agree. *)
Lemma query_of_line_single_token (l : string) :
  Py.startswith SENTINEL l = true ->
  Py.contains SENTINEL (remove_prefix SENTINEL l) = false ->
  query_of_line l = spec_query_of_line l.
Proof.
  intros Hp Hrest.
  unfold query_of_line, spec_query_of_line.
  destruct (startswith_inv _ _ Hp) as [rest ->].
  unfold remove_prefix in *. rewrite Hp in *. rewrite drop_app in *.
  unfold SENTINEL at 1 2. rewrite replace_leading. simpl String.append.
  rewrite replace_absent; [reflexivity | discriminate | exact Hrest].
Qed.

(** ** Running the script *)

Lemma log_interaction_run (env : Env) (uid itype query analysis : string)
    (severity : Z) (pn pl : option string) (w : World) :
  log_interaction env uid itype query analysis severity pn pl w
  = (Ok tt, logged env (new_row env uid itype query analysis severity pn pl) w).
Proof.
  unfold_script. unfold logged, new_row.
  destruct (append_fault env _ _); reflexivity.
Qed.

Lemma first_product_link_run (urls : list string) (w : World) :
  first_product_link urls w
  = (Ok (find is_product_link urls),
     mkWorld (messages w) (log_rows w)
             (ui w ++ [match find is_product_link urls with
                       | Some url => UiFound url
                       | None => UiNoProductLink
                       end])
             (gen_requests w) (searches w)).
Proof.
  induction urls as [|url rest IH]; simpl.
  - reflexivity.
  - destruct (is_product_link url); [reflexivity | exact IH].
Qed.

Lemma search_amazon_run (env : Env) (query : string) (w : World) :
  search_amazon env query w
  = (Ok (product_of (search env (full_query_of query) 3)),
     mkWorld (messages w) (log_rows w)
             (ui w ++ search_ui query (search env (full_query_of query) 3))
             (gen_requests w)
             (searches w ++ [(full_query_of query, 3)])).
Proof.
  unfold search_amazon, try_except, bind, call_search, show, ret,
    product_of, search_ui, full_query_of.
  cbn [messages log_rows ui gen_requests searches].
  destruct (search env _ 3) as [urls|e].
  - rewrite first_product_link_run.
    cbn [messages log_rows ui gen_requests searches].
    rewrite <- app_assoc. reflexivity.
  - cbn. rewrite <- app_assoc. reflexivity.
Qed.

Lemma find_is_product_link (urls : list string) (url : string) :
  find is_product_link urls = Some url -> is_product_link url = true.
Proof. intros H; apply find_some in H; tauto. Qed.

Lemma is_product_link_truthy (url : string) :
  is_product_link url = true -> Py.truthy url = true.
Proof. destruct url; [discriminate | reflexivity]. Qed.

(** A link that [search_amazon] returns passes the [if product_link:] test. *)
Lemma link_found_product_of (answer : result (list string)) :
  link_found (product_of answer) = product_of answer.
Proof.
  unfold link_found.
  destruct (product_of answer) as [url|] eqn:E; [|reflexivity].
  destruct answer as [urls|e]; simpl in E; [|discriminate].
  rewrite (is_product_link_truthy _ (find_is_product_link _ E)). reflexivity.
Qed.

Lemma handle_response_run (env : Env) (prompt full_response : string)
    (w : World) :
  handle_response env prompt full_response w
  = after_response env prompt full_response w.
Proof.
  unfold handle_response, after_response, bind, lift.
  destruct (extract_query full_response) as [[q|]|e]; [| |reflexivity].
  - rewrite search_amazon_run, link_found_product_of.
    destruct (product_of _) as [url|] eqn:E.
    + unfold append_message. rewrite log_interaction_run. reflexivity.
    + rewrite log_interaction_run. reflexivity.
  - rewrite log_interaction_run. reflexivity.
Qed.

Lemma chat_turn_run (env : Env) (profile_data : option dict)
    (audit_data : option (list dict)) (prompt : string) (w : World) :
  chat_turn env profile_data audit_data prompt w
  = after_turn env profile_data audit_data prompt w.
Proof.
  unfold chat_turn, after_turn, prompt_step, bind, lift, append_message,
    get_messages, try_except, stream_response, turn_request, show, ret.
  cbn [messages log_rows ui gen_requests searches].
  destruct (Prompt.construct_system_prompt _ _) as [sp|e]; [|reflexivity].
  destruct (send_message env _) as [chunks [e|]] eqn:E;
    cbn [answer_of answer_ui messages log_rows ui gen_requests searches];
    rewrite handle_response_run; unfold add_ui, add_request, add_message;
    cbn [messages log_rows ui gen_requests searches];
    rewrite ?app_nil_r;
    destruct (after_response _ _ _ _) as [[[]|e'] w3]; reflexivity.
Qed.

(** ** The response parser *)

(** C1 (the code departs from the claim). A text in which the token
    [SEARCH:] stands only in the middle of a line has no sentinel line, yet
    the parsing step does not return no-query: the membership test of line
    198 lets it in and the indexing of line 199 raises [IndexError]. The
    text turn that receives this text stops there: nothing is logged and
    the answer is not added to the transcript. *)
Theorem midline_sentinel_raises :
  sentinel_lines midline_text = [] /\
  extract_query midline_text = Raise IndexError /\
  chat_turn (stub_env ([midline_text], None) (Ok []) None) None None
            "my cheeks are red" empty_world
  = (Raise IndexError,
     mkWorld [mkMsg "user" "my cheeks are red"] [] []
             [turn_request [] "my cheeks are red"] []).
Proof. repeat split; vm_compute; reflexivity. Qed.

(** Where the claim of C1 does hold: a text without the token anywhere
    yields no query, and the step fails exactly when the token occurs but
    starts no line. *)
Lemma extract_query_fails_iff (t : string) :
  extract_query t = Raise IndexError
  <-> (sentinel_lines t = [] /\ Py.contains SENTINEL t = true).
Proof.
  rewrite extract_query_cases.
  destruct (sentinel_lines t) as [|l ls] eqn:E.
  - destruct (Py.contains SENTINEL t); split; intros H;
      try discriminate; try tauto.
    destruct H; discriminate.
  - split; [discriminate | intros [H _]; discriminate].
Qed.

(** C2 (the code departs from the claim). On a sentinel line that holds the
    token a second time, the query is not the line with its one leading
    token removed: [replace] removes every occurrence. The line is still the
    first sentinel line and one query is recognised. *)
Theorem second_token_removed :
  sentinel_lines two_token_line = [two_token_line] /\
  extract_query two_token_line = Ok (Some "cleanser  gentle") /\
  spec_query_of_line two_token_line = "cleanser SEARCH: gentle".
Proof. repeat split; vm_compute; reflexivity. Qed.

(** The parser examples of the specification. *)
Example extract_query_three_lines :
  extract_query three_line_text = Ok (Some "cream salicylic acid under $25 CAD").
Proof. vm_compute; reflexivity. Qed.

Example extract_query_no_sentinel :
  extract_query "Keep the routine gentle." = Ok None.
Proof. vm_compute; reflexivity. Qed.

Example extract_query_first_wins :
  extract_query two_sentinel_text = Ok (Some "first query").
Proof. vm_compute; reflexivity. Qed.

(** ** The prompt builder *)

(** C8. With no profile ([None], or an empty record) the prompt builder
    returns the generic fallback prompt whatever the audit data is, and does
    not raise. *)
Theorem no_profile_fallback (routine_audit : option (list dict)) :
  Prompt.construct_system_prompt None routine_audit = Ok Prompt.FALLBACK_PROMPT /\
  Prompt.construct_system_prompt (Some []) routine_audit = Ok Prompt.FALLBACK_PROMPT.
Proof. split; reflexivity. Qed.

Lemma all_str_total (items : list pyval) :
  forallb is_str items = true -> exists ss, Prompt.all_str items = Ok ss.
Proof.
  induction items as [|v items IH]; simpl; intros H.
  - eexists; reflexivity.
  - apply andb_true_iff in H as [Hv Hrest].
    destruct v; try discriminate.
    destruct (IH Hrest) as [ss ->]. eexists; reflexivity.
Qed.

Lemma join_value_total (sep : string) (v : pyval) :
  str_sequence v = true -> exists s, Prompt.join_value sep v = Ok s.
Proof.
  destruct v; try discriminate. simpl. intros H.
  destruct (all_str_total _ H) as [ss ->]. eexists; reflexivity.
Qed.

Lemma dict_item_total (d : dict) (key : string) :
  has_key d key = true -> exists v, dict_item d key = Ok v.
Proof.
  unfold has_key, dict_item.
  destruct (dict_lookup d key); [eexists; reflexivity | discriminate].
Qed.

Lemma audit_line_total (item : dict) :
  is_audit_entry item = true -> exists l, Prompt.audit_line item = Ok l.
Proof.
  unfold is_audit_entry, Prompt.audit_line. intros H.
  apply andb_true_iff in H as [H Hn]. apply andb_true_iff in H as [Hp Hs].
  destruct (dict_item_total _ _ Hp) as [v1 ->].
  destruct (dict_item_total _ _ Hs) as [v2 ->].
  destruct (dict_item_total _ _ Hn) as [v3 ->].
  eexists; reflexivity.
Qed.

Lemma audit_lines_total (items : list dict) :
  forallb is_audit_entry items = true ->
  exists ls, Prompt.audit_lines items = Ok ls.
Proof.
  induction items as [|item items IH]; simpl; intros H.
  - eexists; reflexivity.
  - apply andb_true_iff in H as [Hi Hrest].
    destruct (audit_line_total _ Hi) as [l ->].
    destruct (IH Hrest) as [ls ->]. eexists; reflexivity.
Qed.

(** On records of the data model the prompt builder returns a prompt. *)
Lemma construct_system_prompt_total (d : dict) (items : list dict) :
  is_user_profile d = true -> forallb is_audit_entry items = true ->
  exists s, Prompt.construct_system_prompt (Some d) (Some items) = Ok s.
Proof.
  intros Hd Hi. unfold Prompt.construct_system_prompt.
  destruct (Prompt.profile_missing (Some d)); [eexists; reflexivity|].
  destruct (audit_lines_total _ Hi) as [ls ->].
  unfold is_user_profile in Hd. apply andb_true_iff in Hd as [Hm Ha].
  destruct (join_value_total ", " _ Hm) as [meds ->].
  destruct (join_value_total ", " _ Ha) as [avoid ->].
  eexists; reflexivity.
Qed.

(** The prompt step reads its arguments only and leaves the state alone;
    an exception, if any, is the same one too. *)
Lemma prompt_step_pure (p : option dict) (a : option (list dict)) (w : World) :
  prompt_step p a w = (Prompt.construct_system_prompt p a, w).
Proof. reflexivity. Qed.

(** C9. The prompt builder is deterministic: for every profile and every
    sequence of audit entries of the data model there is one prompt string
    that every evaluation returns, in whatever state of the session, the
    log and the page it runs, and the evaluation leaves that state as it
    found it. *)
Theorem construct_system_prompt_deterministic (d : dict) (items : list dict)
    (w1 w2 : World) :
  is_user_profile d = true -> forallb is_audit_entry items = true ->
  exists s,
    prompt_step (Some d) (Some items) w1 = (Ok s, w1) /\
    prompt_step (Some d) (Some items) w2 = (Ok s, w2).
Proof.
  intros Hd Hi.
  destruct (construct_system_prompt_total _ _ Hd Hi) as [s Hs].
  exists s. rewrite !prompt_step_pure, Hs. split; reflexivity.
Qed.

Lemma construct_system_prompt_deterministic_witness :
  exists s,
    prompt_step (Some seed_profile) (Some seed_audit) empty_world
    = (Ok s, empty_world) /\
    prompt_step (Some seed_profile) (Some seed_audit)
                (mkWorld earlier_session [] [] [] [])
    = (Ok s, mkWorld earlier_session [] [] [] []).
Proof.
  apply (@construct_system_prompt_deterministic seed_profile seed_audit
           empty_world (mkWorld earlier_session [] [] [] []));
    reflexivity.
Defined.

(** ** The product finder *)

(** C5 (the code departs from the claim). The test of line 137 looks for
    the texts [amazon.ca] and [/dp/] anywhere in the URL: a result of
    another domain that merely holds them is returned as the product link,
    where a test of the domain and the path returns no result. The query
    is restricted to the retailer's site, the warning speaks of a direct
    Amazon.ca product link and the link is announced as one on Amazon.ca,
    so the domain is what the test is meant to establish. *)
Lemma search_amazon_accepts_other_domain :
  fst (search_amazon (stub_env ([], None) (Ok [lookalike_url]) None)
                     "gentle cleanser" empty_world)
  = Ok (Some lookalike_url) /\
  url_host lookalike_url = "deals.example.com" /\
  spec_product_of (Ok [lookalike_url]) = None.
Proof. repeat split; vm_compute; reflexivity. Qed.

(** The rest of the product finder as the code has it: it asks the
    provider once, for three results of the query followed by
    [ site:amazon.ca], returns the first returned URL that passes the test
    of line 137, returns [None] when no returned URL does or when the
    search raises, and never raises itself. *)
Theorem search_amazon_first_match (env : Env) (query : string) (w : World) :
  fst (search_amazon env query w)
  = Ok (match search env (query ++ " site:amazon.ca")%string 3 with
        | Ok urls =>
            find (fun url => Py.contains "amazon.ca" url && Py.contains "/dp/" url)
                 urls
        | Raise _ => None
        end) /\
  searches (snd (search_amazon env query w))
  = searches w ++ [((query ++ " site:amazon.ca")%string, 3)] /\
  log_rows (snd (search_amazon env query w)) = log_rows w /\
  messages (snd (search_amazon env query w)) = messages w.
Proof. rewrite search_amazon_run. repeat split. Qed.

(** The examples of the specification. *)
Example search_amazon_first_only :
  fst (search_amazon
         (stub_env ([], None)
                   (Ok ["https://amazon.ca/dp/B000123"; "https://other.com/x"]) None)
         "cream" empty_world)
  = Ok (Some "https://amazon.ca/dp/B000123").
Proof. vm_compute; reflexivity. Qed.

Example search_amazon_no_product_page :
  fst (search_amazon (stub_env ([], None) (Ok ["https://amazon.ca/s?k=foo"]) None)
                     "cream" empty_world)
  = Ok None.
Proof. vm_compute; reflexivity. Qed.

(** ** The interaction logger *)

Lemma after_response_outcome (env : Env) (prompt full_response : string)
    (w : World) :
  fst (after_response env prompt full_response w)
  = match extract_query full_response with
    | Ok _ => Ok tt
    | Raise e => Raise e
    end.
Proof.
  unfold after_response.
  destruct (extract_query full_response) as [[q|]|e]; try reflexivity.
  cbv zeta. destruct (product_of _); reflexivity.
Qed.

Lemma chat_turn_outcome (env : Env) (p : option dict) (a : option (list dict))
    (prompt : string) (w : World) :
  fst (chat_turn env p a prompt w)
  = match Prompt.construct_system_prompt p a with
    | Raise e => Raise e
    | Ok _ =>
        match extract_query
                (answer_of (send_message env (turn_request (messages w) prompt)))
        with
        | Ok _ => Ok tt
        | Raise e => Raise e
        end
    end.
Proof.
  rewrite chat_turn_run. unfold after_turn. cbv zeta.
  destruct (Prompt.construct_system_prompt p a) as [sp|e]; [|reflexivity].
  rewrite <- after_response_outcome
    with (env := env) (prompt := prompt)
         (w := add_ui (answer_ui (send_message env (turn_request (messages w) prompt)))
                 (add_request (turn_request (messages w) prompt)
                    (add_message (mkMsg "user" prompt) w))).
  destruct (after_response _ _ _ _) as [[[]|e] w3]; reflexivity.
Qed.

(** C6. [log_interaction] returns normally whatever the worksheet does: a
    refused append leaves the sheet as it was and puts one warning on the
    page. The outcome of the text turn around it does not depend on the
    worksheet's behaviour. *)
Theorem log_interaction_never_raises (env : Env)
    (uid itype query analysis : string) (severity : Z)
    (product_name product_link : option string) (w : World) :
  let r := mkRow (now_str env) (now_iso env) uid itype query analysis severity
                 product_name product_link in
  let out := log_interaction env uid itype query analysis severity
                             product_name product_link w in
  fst out = Ok tt /\
  snd out = match append_fault env (log_rows w) r with
            | None => mkWorld (messages w) (log_rows w ++ [r]) (ui w)
                              (gen_requests w) (searches w)
            | Some e => mkWorld (messages w) (log_rows w) (ui w ++ [UiLogFailed e])
                                (gen_requests w) (searches w)
            end /\
  forall fault p a prompt,
    fst (chat_turn (with_append_fault env fault) p a prompt w)
    = fst (chat_turn env p a prompt w).
Proof.
  cbv zeta. rewrite log_interaction_run. repeat split.
  intros. rewrite !chat_turn_outcome. reflexivity.
Qed.

(** ** The text turn and its log entry *)

Lemma extract_query_none_inv (t : string) :
  extract_query t = Ok None -> Py.contains SENTINEL t = false.
Proof.
  unfold extract_query. destruct (Py.contains SENTINEL t); [|reflexivity].
  destruct (first_item _); discriminate.
Qed.

Lemma extract_query_some_inv (t q : string) :
  extract_query t = Ok (Some q) -> Py.contains SENTINEL t = true.
Proof.
  unfold extract_query. destruct (Py.contains SENTINEL t); [reflexivity|].
  discriminate.
Qed.

Lemma logged_rows (env : Env) (r : Row) (w : World) :
  log_rows (logged env r w) = rows_after env r (log_rows w).
Proof. unfold logged, rows_after. destruct (append_fault _ _ _); reflexivity. Qed.

Lemma logged_messages (env : Env) (r : Row) (w : World) :
  messages (logged env r w) = messages w.
Proof. unfold logged. destruct (append_fault _ _ _); reflexivity. Qed.

Lemma logged_requests (env : Env) (r : Row) (w : World) :
  gen_requests (logged env r w) = gen_requests w.
Proof. unfold logged. destruct (append_fault _ _ _); reflexivity. Qed.

Lemma logged_searches (env : Env) (r : Row) (w : World) :
  searches (logged env r w) = searches w.
Proof. unfold logged. destruct (append_fault _ _ _); reflexivity. Qed.

Lemma logged_warns (env : Env) (r : Row) (w : World) (e : exn) :
  append_fault env (log_rows w) r = Some e ->
  In (UiLogFailed e) (ui (logged env r w)).
Proof.
  intros H. unfold logged. rewrite H. cbn. apply in_or_app. right. left.
  reflexivity.
Qed.

Lemma logged_keeps_ui (env : Env) (r : Row) (w : World) (ev : ui_event) :
  In ev (ui w) -> In ev (ui (logged env r w)).
Proof.
  intros H. unfold logged. destruct (append_fault _ _ _); cbn [ui]; auto.
  apply in_or_app. left. exact H.
Qed.

Lemma after_response_rows (env : Env) (prompt fr : string) (w : World) :
  log_rows (snd (after_response env prompt fr w))
  = match log_fields env fr with
    | Some (sev, pn, pl) =>
        rows_after env (new_row env USER_ID "text" prompt fr sev pn pl) (log_rows w)
    | None => log_rows w
    end.
Proof.
  unfold after_response, log_fields.
  destruct (extract_query fr) as [[q|]|e]; cbv zeta; [| |reflexivity].
  - destruct (product_of _) as [url|]; cbn [snd]; rewrite logged_rows; reflexivity.
  - cbn [snd]; rewrite logged_rows; reflexivity.
Qed.

Lemma after_response_warns (env : Env) (prompt fr : string) (w : World)
    (sev : Z) (pn pl : option string) (e : exn) :
  log_fields env fr = Some (sev, pn, pl) ->
  append_fault env (log_rows w)
               (new_row env USER_ID "text" prompt fr sev pn pl) = Some e ->
  In (UiLogFailed e) (ui (snd (after_response env prompt fr w))).
Proof.
  unfold after_response, log_fields.
  destruct (extract_query fr) as [[q|]|e0]; cbv zeta; [| |discriminate].
  - destruct (product_of _) as [url|]; intros H; inversion H; subst; intros Hf;
      cbn [snd]; apply logged_warns; exact Hf.
  - intros H; inversion H; subst; intros Hf; cbn [snd]; apply logged_warns;
      exact Hf.
Qed.

(** The sheet after a text turn: the turn's row, once, if the script got to
    the logger and the worksheet took the row. *)
Lemma chat_turn_rows (env : Env) (p : option dict) (a : option (list dict))
    (prompt : string) (w : World) :
  log_rows (snd (chat_turn env p a prompt w))
  = match Prompt.construct_system_prompt p a, turn_row env w prompt with
    | Ok _, Some r => rows_after env r (log_rows w)
    | _, _ => log_rows w
    end.
Proof.
  rewrite chat_turn_run. unfold after_turn, turn_row, turn_answer. cbv zeta.
  destruct (Prompt.construct_system_prompt p a) as [sp|e]; [|reflexivity].
  set (req := turn_request (messages w) prompt).
  set (reply := send_message env req).
  set (w2 := add_ui _ _).
  pose proof (after_response_rows env prompt (answer_of reply) w2) as H.
  destruct (after_response env prompt (answer_of reply) w2) as [[[]|e] w3];
    cbn [snd log_rows add_message] in *; rewrite H;
    destruct (log_fields env (answer_of reply)) as [[[sev pn] pl]|]; reflexivity.
Qed.

Lemma chat_turn_completes (env : Env) (p : option dict)
    (a : option (list dict)) (prompt : string) (w w' : World) :
  chat_turn env p a prompt w = (Ok tt, w') ->
  (exists sp, Prompt.construct_system_prompt p a = Ok sp) /\
  exists r, turn_row env w prompt = Some r.
Proof.
  intros H.
  assert (Hout : fst (chat_turn env p a prompt w) = Ok tt) by (rewrite H; reflexivity).
  rewrite chat_turn_outcome in Hout.
  destruct (Prompt.construct_system_prompt p a) as [sp|e]; [|discriminate].
  split; [eexists; reflexivity|].
  unfold turn_row, log_fields, turn_answer.
  destruct (extract_query _) as [[q|]|e]; [| |discriminate]; eexists; reflexivity.
Qed.

Lemma after_response_requests (env : Env) (prompt fr : string) (w : World) :
  gen_requests (snd (after_response env prompt fr w)) = gen_requests w.
Proof.
  unfold after_response.
  destruct (extract_query fr) as [[q|]|e]; cbv zeta; [| |reflexivity].
  - destruct (product_of _); cbn [snd]; rewrite logged_requests; reflexivity.
  - cbn [snd]; rewrite logged_requests; reflexivity.
Qed.

Lemma chat_turn_requests (env : Env) (p : option dict) (a : option (list dict))
    (prompt : string) (w : World) :
  gen_requests (snd (chat_turn env p a prompt w))
  = match Prompt.construct_system_prompt p a with
    | Ok _ => gen_requests w ++ [turn_request (messages w) prompt]
    | Raise _ => gen_requests w
    end.
Proof.
  rewrite chat_turn_run. unfold after_turn. cbv zeta.
  destruct (Prompt.construct_system_prompt p a) as [sp|e]; [|reflexivity].
  set (reply := send_message env _).
  set (w2 := add_ui _ _).
  pose proof (after_response_requests env prompt (answer_of reply) w2) as H.
  destruct (after_response env prompt (answer_of reply) w2) as [[[]|e] w3];
    cbn [snd gen_requests add_message] in *; rewrite H; reflexivity.
Qed.

Lemma chat_turn_warns (env : Env) (p : option dict) (a : option (list dict))
    (prompt : string) (w : World) (sp : string) (r : Row) (e : exn) :
  Prompt.construct_system_prompt p a = Ok sp ->
  turn_row env w prompt = Some r ->
  append_fault env (log_rows w) r = Some e ->
  In (UiLogFailed e) (ui (snd (chat_turn env p a prompt w))).
Proof.
  intros Hp Hr Hf.
  rewrite chat_turn_run. unfold after_turn. cbv zeta. rewrite Hp.
  unfold turn_row, turn_answer in Hr.
  set (reply := send_message env _) in *.
  set (w2 := add_ui _ _).
  destruct (log_fields env (answer_of reply)) as [[[sev pn] pl]|] eqn:El;
    [|discriminate].
  inversion Hr; subst r.
  pose proof (@after_response_warns env prompt (answer_of reply) w2 sev pn pl e El Hf)
    as H.
  destruct (after_response env prompt (answer_of reply) w2) as [[[]|e'] w3];
    cbn [snd ui add_message] in *; exact H.
Qed.

(** ** Turns and the interaction log *)

(** C3, as stated, fails: a text turn whose append the worksheet refuses
    completes with no row added, and so does an image turn with a working
    worksheet. *)
Lemma completed_turns_without_a_row :
  (fst (run_turn refusing_sheet None None (TextTurn "my cheeks are red") empty_world)
   = Ok tt /\
   log_rows (snd (run_turn refusing_sheet None None (TextTurn "my cheeks are red")
                           empty_world)) = []) /\
  (fst (run_turn working_sheet None None (ImageTurn cheek_photo) empty_world)
   = Ok tt /\
   log_rows (snd (run_turn working_sheet None None (ImageTurn cheek_photo)
                           empty_world)) = []).
Proof. repeat split; vm_compute; reflexivity. Qed.

(** The image handler never reaches the logger. *)
Lemma analyze_image_rows (env : Env) (p : option dict) (a : option (list dict))
    (uploaded_file : Upload) (w : World) :
  log_rows (snd (analyze_image env p a uploaded_file w)) = log_rows w.
Proof.
  unfold_script.
  destruct (Prompt.construct_system_prompt p a); [|reflexivity].
  destruct (generate_content env _ _ _); reflexivity.
Qed.

(** C3, amended. A text turn that completes has handed exactly one row to
    the logger: it is the only row added to the sheet when the worksheet
    takes it; when the worksheet refuses it, the sheet is as before and the
    page shows the warning. *)
Theorem text_turn_logs_once (env : Env) (p : option dict)
    (a : option (list dict)) (prompt : string) (w w' : World) :
  run_turn env p a (TextTurn prompt) w = (Ok tt, w') ->
  exists r,
    turn_row env w prompt = Some r /\
    input_type r = "text" /\ user_query r = prompt /\
    match append_fault env (log_rows w) r with
    | None => log_rows w' = log_rows w ++ [r]
    | Some e => log_rows w' = log_rows w /\ In (UiLogFailed e) (ui w')
    end.
Proof.
  cbn [run_turn]. intros H.
  destruct (chat_turn_completes _ _ _ _ _ H) as [[sp Hp] [r Hr]].
  exists r. split; [exact Hr|].
  assert (Hrow : input_type r = "text" /\ user_query r = prompt).
  { unfold turn_row in Hr.
    destruct (log_fields _ _) as [[[sev pn] pl]|]; [|discriminate].
    inversion Hr; split; reflexivity. }
  destruct Hrow as [Hi Hq]. repeat split; try assumption.
  pose proof (chat_turn_rows env p a prompt w) as Hrows.
  pose proof (@chat_turn_warns env p a prompt w sp r) as Hwarn.
  rewrite H in Hrows, Hwarn. cbn [snd] in Hrows, Hwarn.
  rewrite Hp, Hr in Hrows. unfold rows_after in Hrows.
  destruct (append_fault env (log_rows w) r) as [e|] eqn:Ef.
  - split; [exact Hrows | apply Hwarn; auto].
  - exact Hrows.
Qed.

Lemma text_turn_logs_once_witness :
  exists r,
    turn_row working_sheet empty_world "my cheeks are red" = Some r /\
    input_type r = "text" /\ user_query r = "my cheeks are red" /\
    match append_fault working_sheet (log_rows empty_world) r with
    | None =>
        log_rows (snd (chat_turn working_sheet None None "my cheeks are red"
                                 empty_world))
        = log_rows empty_world ++ [r]
    | Some e =>
        log_rows (snd (chat_turn working_sheet None None "my cheeks are red"
                                 empty_world))
        = log_rows empty_world /\
        In (UiLogFailed e)
           (ui (snd (chat_turn working_sheet None None "my cheeks are red"
                               empty_world)))
    end.
Proof.
  apply (@text_turn_logs_once working_sheet None None "my cheeks are red"
           empty_world
           (snd (chat_turn working_sheet None None "my cheeks are red" empty_world))).
  vm_compute. reflexivity.
Defined.

(** ** What the generation endpoint receives *)

(** C4 (the code departs from the claim). The history of line 185 is built
    after line 176 has put the new message into the transcript, and line
    189 sends the message again: the endpoint receives the transcript
    followed by two copies of the new user turn, not one. *)
Theorem new_message_delivered_twice (env : Env) (p : option dict)
    (a : option (list dict)) (prompt : string) (w : World) :
  delivered (turn_request (messages w) prompt)
  = map to_gemini (messages w)
    ++ [mkGemini "user" [prompt]; mkGemini "user" [prompt]] /\
  gen_requests (snd (chat_turn env p a prompt w))
  = match Prompt.construct_system_prompt p a with
    | Ok _ => gen_requests w ++ [turn_request (messages w) prompt]
    | Raise _ => gen_requests w
    end.
Proof.
  split; [|apply chat_turn_requests].
  unfold delivered, turn_request. cbn [history message].
  rewrite map_app, <- app_assoc. reflexivity.
Qed.

Example second_turn_delivery :
  map delivered
      (gen_requests
         (snd (chat_turn working_sheet None None "my cheeks are red"
                         (mkWorld earlier_session [] [] [] []))))
  = [[mkGemini "user" ["hello"]; mkGemini "model" ["Hi, how can I help?"];
      mkGemini "user" ["my cheeks are red"];
      mkGemini "user" ["my cheeks are red"]]].
Proof. vm_compute; reflexivity. Qed.

(** ** A failing generation call *)

Lemma fallback_has_no_query : extract_query GEMINI_FALLBACK = Ok None.
Proof. vm_compute; reflexivity. Qed.

(** C7. When the generation call of a text turn fails, at once or in the
    middle of the stream, the turn completes: the answer is the fixed
    fallback text, the call is made once, no search is made, and the logger
    receives the turn with the fallback text as its analysis (the row is
    added unless the worksheet refuses it). *)
Theorem generation_failure_recovered (env : Env) (p : option dict)
    (a : option (list dict)) (prompt : string) (w : World)
    (sp : string) (chunks : list string) (e : exn) :
  Prompt.construct_system_prompt p a = Ok sp ->
  send_message env (turn_request (messages w) prompt) = (chunks, Some e) ->
  let out := chat_turn env p a prompt w in
  let r := mkRow (now_str env) (now_iso env) USER_ID "text" prompt
                 "Sorry, I encountered an error." 3 None None in
  fst out = Ok tt /\
  messages (snd out)
  = messages w ++ [mkMsg "user" prompt;
                   mkMsg "assistant" "Sorry, I encountered an error."] /\
  gen_requests (snd out) = gen_requests w ++ [turn_request (messages w) prompt] /\
  searches (snd out) = searches w /\
  In (UiGeminiFailed e) (ui (snd out)) /\
  turn_row env w prompt = Some r /\
  log_rows (snd out) = match append_fault env (log_rows w) r with
                       | None => log_rows w ++ [r]
                       | Some _ => log_rows w
                       end.
Proof.
  intros Hp Hs. cbv zeta.
  assert (Hrow : turn_row env w prompt
                 = Some (new_row env USER_ID "text" prompt GEMINI_FALLBACK 3 None None)).
  { unfold turn_row, turn_answer, log_fields. rewrite Hs. cbn [answer_of].
    rewrite fallback_has_no_query. reflexivity. }
  split; [|split; [|split; [|split; [|split; [|split]]]]].
  - rewrite chat_turn_outcome, Hp, Hs. cbn [answer_of].
    rewrite fallback_has_no_query. reflexivity.
  - rewrite chat_turn_run. unfold after_turn, after_response. cbv zeta.
    rewrite Hp, Hs. cbn [answer_of answer_ui].
    rewrite fallback_has_no_query. cbn [snd messages add_message].
    rewrite logged_messages. cbn. rewrite <- app_assoc. reflexivity.
  - rewrite chat_turn_requests, Hp. reflexivity.
  - rewrite chat_turn_run. unfold after_turn, after_response. cbv zeta.
    rewrite Hp, Hs. cbn [answer_of answer_ui].
    rewrite fallback_has_no_query. cbn [snd searches add_message].
    rewrite logged_searches. reflexivity.
  - rewrite chat_turn_run. unfold after_turn, after_response. cbv zeta.
    rewrite Hp, Hs. cbn [answer_of answer_ui].
    rewrite fallback_has_no_query. cbn [snd ui add_message].
    apply logged_keeps_ui. cbn [ui add_ui add_request add_message].
    apply in_or_app. right. left. reflexivity.
  - exact Hrow.
  - rewrite chat_turn_rows, Hp, Hrow. reflexivity.
Qed.

Lemma generation_failure_recovered_witness :
  let out := chat_turn broken_stream None None "my cheeks are red" empty_world in
  let r := mkRow (now_str broken_stream) (now_iso broken_stream) USER_ID "text"
                 "my cheeks are red" "Sorry, I encountered an error." 3 None None in
  fst out = Ok tt /\
  messages (snd out)
  = messages empty_world
    ++ [mkMsg "user" "my cheeks are red";
        mkMsg "assistant" "Sorry, I encountered an error."] /\
  gen_requests (snd out)
  = gen_requests empty_world
    ++ [turn_request (messages empty_world) "my cheeks are red"] /\
  searches (snd out) = searches empty_world /\
  In (UiGeminiFailed (ServiceError "connection reset")) (ui (snd out)) /\
  turn_row broken_stream empty_world "my cheeks are red" = Some r /\
  log_rows (snd out)
  = match append_fault broken_stream (log_rows empty_world) r with
    | None => log_rows empty_world ++ [r]
    | Some _ => log_rows empty_world
    end.
Proof.
  apply (@generation_failure_recovered broken_stream None None
           "my cheeks are red" empty_world Prompt.FALLBACK_PROMPT
           ["Your skin "] (ServiceError "connection reset"));
    reflexivity.
Defined.

(** ** What the log row holds *)

Lemma turn_row_as_logged (env : Env) (w : World) (prompt : string) (r : Row) :
  turn_row env w prompt = Some r -> row_as_logged (turn_answer env w prompt) r.
Proof.
  unfold turn_row, log_fields, row_as_logged.
  destruct (extract_query (turn_answer env w prompt)) as [[q|]|e] eqn:E;
    [| |discriminate]; intros H; inversion H; subst r; cbn.
  - rewrite (extract_query_some_inv _ E). auto.
  - rewrite (extract_query_none_inv _ E). auto.
Qed.

(** Whatever a text turn adds to the log, it is at most one row, and that
    row has severity 5 when the answer contains the text [SEARCH:] and 3
    otherwise. *)
Lemma logged_severity_is_constant (env : Env) (p : option dict)
    (a : option (list dict)) (prompt : string) (w : World) :
  exists new_rows,
    log_rows (snd (chat_turn env p a prompt w)) = log_rows w ++ new_rows /\
    length new_rows <= 1 /\
    Forall (row_as_logged (turn_answer env w prompt)) new_rows.
Proof.
  rewrite chat_turn_rows.
  destruct (Prompt.construct_system_prompt p a) as [sp|e].
  - destruct (turn_row env w prompt) as [r|] eqn:Er.
    + unfold rows_after. destruct (append_fault env (log_rows w) r).
      * exists []. rewrite app_nil_r. repeat split; auto.
      * exists [r]. repeat split; auto.
        constructor; [|constructor]. apply turn_row_as_logged; exact Er.
    + exists []. rewrite app_nil_r. repeat split; auto.
  - exists []. rewrite app_nil_r. repeat split; auto.
Qed.

(** The three kinds of row a text turn writes. *)
Example row_with_product :
  log_rows (snd (chat_turn finds_product (Some seed_profile) (Some seed_audit)
                           "my cheeks are red and itchy" empty_world))
  = [mkRow (now_str finds_product) (now_iso finds_product) USER_ID "text"
           "my cheeks are red and itchy" (String.concat "" moisturizer_answer) 5
           (Some "gentle moisturizer ceramide under $25 CAD")
           (Some moisturizer_url)].
Proof. vm_compute; reflexivity. Qed.

Example row_without_product :
  log_rows (snd (chat_turn finds_nothing (Some seed_profile) (Some seed_audit)
                           "my cheeks are red and itchy" empty_world))
  = [mkRow (now_str finds_nothing) (now_iso finds_nothing) USER_ID "text"
           "my cheeks are red and itchy" (String.concat "" moisturizer_answer) 5
           (Some "gentle moisturizer ceramide under $25 CAD") None].
Proof. vm_compute; reflexivity. Qed.

Example row_without_search :
  log_rows (snd (chat_turn working_sheet (Some seed_profile) (Some seed_audit)
                           "my cheeks are red and itchy" empty_world))
  = [mkRow (now_str working_sheet) (now_iso working_sheet) USER_ID "text"
           "my cheeks are red and itchy" "Use a gentle cleanser." 3 None None].
Proof. vm_compute; reflexivity. Qed.

(** C10, as stated, fails: there are text turns after which no severity
    score has been written. A turn whose answer holds no sentinel completes
    without a row when the worksheet refuses the append, and a turn whose
    answer holds the sentinel in the middle of a line stops before the
    logger. *)
Lemma text_turns_without_a_score :
  (Py.contains SENTINEL (turn_answer refusing_sheet empty_world "my cheeks are red")
   = false /\
   fst (chat_turn refusing_sheet None None "my cheeks are red" empty_world)
   = Ok tt /\
   log_rows (snd (chat_turn refusing_sheet None None "my cheeks are red"
                            empty_world)) = []) /\
  (Py.contains SENTINEL
     (turn_answer (stub_env ([midline_text], None) (Ok []) None) empty_world
                  "my cheeks are red") = true /\
   fst (chat_turn (stub_env ([midline_text], None) (Ok []) None) None None
                  "my cheeks are red" empty_world)
   = Raise IndexError /\
   log_rows (snd (chat_turn (stub_env ([midline_text], None) (Ok []) None)
                            None None "my cheeks are red" empty_world)) = []).
Proof. repeat split; vm_compute; reflexivity. Qed.

(** C10, amended. A text turn that completes hands exactly one row to the
    logger, and that row is the one row added to the log when the
    worksheet takes it (none is added when the worksheet refuses it). The
    severity of the row is 5 when the answer contains the text [SEARCH:],
    whether or not a product link was found, and 3 otherwise; nothing else
    in the answer bears on it. The product name is filled in exactly when
    the answer contains that text, and it is the extracted search query. *)
Theorem completed_turn_writes_severity (env : Env) (p : option dict)
    (a : option (list dict)) (prompt : string) (w w' : World) :
  chat_turn env p a prompt w = (Ok tt, w') ->
  let answer := turn_answer env w prompt in
  exists q,
    extract_query answer = Ok q /\
    (q = None <-> Py.contains SENTINEL answer = false) /\
    let r := mkRow (now_str env) (now_iso env) USER_ID "text" prompt answer
                   (if Py.contains SENTINEL answer then 5 else 3) q
                   match q with
                   | Some query =>
                       product_of (search env (query ++ " site:amazon.ca")%string 3)
                   | None => None
                   end in
    log_rows w'
    = log_rows w ++ match append_fault env (log_rows w) r with
                    | None => [r]
                    | Some _ => []
                    end.
Proof.
  intros H. cbv zeta.
  destruct (chat_turn_completes _ _ _ _ _ H) as [[sp Hp] [r0 Hr]].
  pose proof (chat_turn_rows env p a prompt w) as Hrows.
  rewrite H, Hp, Hr in Hrows. cbn [snd] in Hrows. unfold rows_after in Hrows.
  unfold turn_row, log_fields in Hr.
  destruct (extract_query (turn_answer env w prompt)) as [[query|]|e] eqn:E;
    [| |discriminate]; inversion Hr; subst r0; clear Hr.
  - exists (Some query). split; [reflexivity|].
    pose proof (extract_query_some_inv _ E) as Hc. rewrite Hc.
    split; [split; discriminate|].
    rewrite Hrows. unfold new_row, full_query_of.
    destruct (append_fault env (log_rows w) _); [rewrite app_nil_r|]; reflexivity.
  - exists None. split; [reflexivity|].
    pose proof (extract_query_none_inv _ E) as Hc. rewrite Hc.
    split; [split; reflexivity|].
    rewrite Hrows. unfold new_row.
    destruct (append_fault env (log_rows w) _); [rewrite app_nil_r|]; reflexivity.
Qed.

Lemma completed_turn_writes_severity_witness :
  let answer := turn_answer finds_nothing empty_world "my cheeks are red" in
  exists q,
    extract_query answer = Ok q /\
    (q = None <-> Py.contains SENTINEL answer = false) /\
    let r := mkRow (now_str finds_nothing) (now_iso finds_nothing) USER_ID "text"
                   "my cheeks are red" answer
                   (if Py.contains SENTINEL answer then 5 else 3) q
                   match q with
                   | Some query =>
                       product_of
                         (search finds_nothing (query ++ " site:amazon.ca")%string 3)
                   | None => None
                   end in
    log_rows (snd (chat_turn finds_nothing None None "my cheeks are red"
                             empty_world))
    = log_rows empty_world
      ++ match append_fault finds_nothing (log_rows empty_world) r with
         | None => [r]
         | Some _ => []
         end.
Proof.
  apply (@completed_turn_writes_severity finds_nothing None None
           "my cheeks are red" empty_world
           (snd (chat_turn finds_nothing None None "my cheeks are red"
                           empty_world))).
  vm_compute. reflexivity.
Defined.

(** * Further properties of the script *)

(** ** Dictionaries *)

Lemma dict_lookup_remove_same (d : dict) (key : string) :
  dict_lookup (dict_remove d key) key = None.
Proof.
  induction d as [|[k v] d IH]; simpl; [reflexivity|].
  destruct (String.eqb k key) eqn:E; simpl; [exact IH|].
  rewrite E. exact IH.
Qed.

Lemma dict_lookup_remove_other (d : dict) (key k' : string) :
  k' <> key -> dict_lookup (dict_remove d key) k' = dict_lookup d k'.
Proof.
  intros Hne. induction d as [|[k v] d IH]; simpl; [reflexivity|].
  destruct (String.eqb k key) eqn:E; simpl.
  - apply String.eqb_eq in E; subst k.
    destruct (String.eqb key k') eqn:E'; [|exact IH].
    apply String.eqb_eq in E'. congruence.
  - destruct (String.eqb k k'); [reflexivity | exact IH].
Qed.

Lemma dict_lookup_set_same (d : dict) (key : string) (v : pyval) :
  dict_lookup (dict_set d key v) key = Some v.
Proof.
  induction d as [|[k x] d IH]; simpl.
  - rewrite String.eqb_refl. reflexivity.
  - destruct (String.eqb k key) eqn:E; simpl; rewrite E; [reflexivity | exact IH].
Qed.

Lemma dict_lookup_set_other (d : dict) (key k' : string) (v : pyval) :
  k' <> key -> dict_lookup (dict_set d key v) k' = dict_lookup d k'.
Proof.
  intros Hne. induction d as [|[k x] d IH]; simpl.
  - destruct (String.eqb key k') eqn:E; [|reflexivity].
    apply String.eqb_eq in E. congruence.
  - destruct (String.eqb k key) eqn:E; simpl.
    + apply String.eqb_eq in E; subst k.
      destruct (String.eqb key k') eqn:E'; [|reflexivity].
      apply String.eqb_eq in E'. congruence.
    + destruct (String.eqb k k'); [reflexivity | exact IH].
Qed.

Lemma dict_set_nonempty (d : dict) (key : string) (v : pyval) :
  dict_set d key v <> [].
Proof.
  destruct d as [|[k x] d]; simpl; [discriminate|].
  destruct (String.eqb k key); discriminate.
Qed.

Ltac differ := let H := fresh in intro H; discriminate H.

(** ** Reading the profile *)

Section FetchFacts.

Variable get_all_records : string -> result (list dict).
Variable json_loads : pyval -> result pyval.

(** One decoded column: the text column is gone, the decoded field is
    there, and every other key is as it was. *)
Lemma decode_field_spec (d d' : dict) (column field default : string) :
  column <> field ->
  decode_field json_loads d column field default = Ok d' ->
  (exists v, json_loads (dict_get d column (PStr default)) = Ok v /\
             dict_lookup d' field = Some v) /\
  dict_lookup d' column = None /\
  (forall k, k <> column -> k <> field -> dict_lookup d' k = dict_lookup d k).
Proof.
  intros Hne. unfold decode_field, dict_pop, and_then.
  destruct (json_loads (dict_get d column (PStr default))) as [v|e] eqn:E;
    [|discriminate].
  intros H; inversion H; subst d'; clear H.
  repeat split.
  - exists v. split; [reflexivity | apply dict_lookup_set_same].
  - rewrite dict_lookup_set_other by exact Hne.
    apply dict_lookup_remove_same.
  - intros k Hc Hf. rewrite dict_lookup_set_other by exact Hf.
    apply dict_lookup_remove_other. exact Hc.
Qed.

Lemma dict_get_lookup_eq (d d' : dict) (key : string) (default : pyval) :
  dict_lookup d' key = dict_lookup d key ->
  dict_get d' key default = dict_get d key default.
Proof. unfold dict_get. intros ->. reflexivity. Qed.

Lemma fetch_user_data_inv (uid : string) (d : dict) (items : list dict) :
  fetch_user_data get_all_records json_loads uid = Ok (d, items) ->
  exists profile_records row rest audit_records d1 d2,
    get_all_records "skin_profile" = Ok profile_records /\
    filter (is_user uid) profile_records = row :: rest /\
    get_all_records "routine_audit" = Ok audit_records /\
    audit_records <> [] /\
    items = filter (is_user uid) audit_records /\
    decode_field json_loads row "current_concerns_json" "current_concerns" "{}"
    = Ok d1 /\
    decode_field json_loads d1 "active_medications_json" "active_medications" "[]"
    = Ok d2 /\
    decode_field json_loads d2 "avoid_ingredients_json" "avoid_ingredients" "[]"
    = Ok d.
Proof.
  unfold fetch_user_data, and_then, select_user.
  destruct (get_all_records "skin_profile") as [precs|e]; [|discriminate].
  destruct (existsb _ precs); [|discriminate].
  destruct (filter (is_user uid) precs) as [|row rest] eqn:Erow; [discriminate|].
  cbn [first_item].
  destruct (get_all_records "routine_audit") as [arecs|e]; [|discriminate].
  destruct (existsb _ arecs) eqn:Eex; [|discriminate].
  destruct (decode_field json_loads row _ _ _) as [d1|e] eqn:E1; [|discriminate].
  destruct (decode_field json_loads d1 _ _ _) as [d2|e] eqn:E2; [|discriminate].
  destruct (decode_field json_loads d2 _ _ _) as [d3|e] eqn:E3; [|discriminate].
  intros H; inversion H; subst d3 items; clear H.
  exists precs, row, rest, arecs, d1, d2.
  repeat split; try reflexivity; try assumption.
  intros ->. discriminate.
Qed.

(** X1. When [get_user_data] returns a profile, it is the first row of the
    profile sheet with the user's id, with its three JSON columns decoded
    into [current_concerns], [active_medications] and [avoid_ingredients]
    (an absent column decodes its default text), the JSON columns removed
    and every other column untouched; the audit data are exactly the audit
    rows with the user's id, in sheet order; nothing is shown. *)
Theorem get_user_data_decodes_row (uid : string) (d : dict)
    (items : list dict) (evs : list fetch_event) :
  get_user_data get_all_records json_loads uid = ((Some d, Some items), evs) ->
  exists profile_records row rest audit_records concerns meds avoid,
    get_all_records "skin_profile" = Ok profile_records /\
    filter (is_user uid) profile_records = row :: rest /\
    get_all_records "routine_audit" = Ok audit_records /\
    items = filter (is_user uid) audit_records /\
    json_loads (dict_get row "current_concerns_json" (PStr "{}")) = Ok concerns /\
    json_loads (dict_get row "active_medications_json" (PStr "[]")) = Ok meds /\
    json_loads (dict_get row "avoid_ingredients_json" (PStr "[]")) = Ok avoid /\
    dict_lookup d "current_concerns" = Some concerns /\
    dict_lookup d "active_medications" = Some meds /\
    dict_lookup d "avoid_ingredients" = Some avoid /\
    dict_lookup d "current_concerns_json" = None /\
    dict_lookup d "active_medications_json" = None /\
    dict_lookup d "avoid_ingredients_json" = None /\
    dict_lookup d "user_id" = Some (PStr uid) /\
    (forall k,
        ~ In k ["current_concerns_json"; "active_medications_json";
                "avoid_ingredients_json"; "current_concerns";
                "active_medications"; "avoid_ingredients"] ->
        dict_lookup d k = dict_lookup row k) /\
    evs = [].
Proof.
  unfold get_user_data.
  destruct (fetch_user_data get_all_records json_loads uid) as [[d0 items0]|e] eqn:E;
    [|discriminate].
  intros H; inversion H; subst d0 items0 evs; clear H.
  destruct (fetch_user_data_inv _ E)
    as (precs & row & rest & arecs & d1 & d2 & Hp & Hrow & Ha & _ & Hitems & E1 & E2 & E3).
  apply decode_field_spec in E1 as [(c & Hc & Hlc) [Hn1 Hk1]]; [|differ].
  apply decode_field_spec in E2 as [(m & Hm & Hlm) [Hn2 Hk2]]; [|differ].
  apply decode_field_spec in E3 as [(a & Ha' & Hla) [Hn3 Hk3]]; [|differ].
  exists precs, row, rest, arecs, c, m, a.
  assert (Hin : In row (filter (is_user uid) precs)) by (rewrite Hrow; left; reflexivity).
  apply filter_In in Hin as [_ Hu]. unfold is_user in Hu.
  repeat split; try assumption.
  - rewrite <- Hm. f_equal. symmetry. apply dict_get_lookup_eq. apply Hk1; differ.
  - rewrite <- Ha'. f_equal. symmetry. apply dict_get_lookup_eq.
    rewrite Hk2 by differ. apply Hk1; differ.
  - rewrite Hk3 by differ. rewrite Hk2 by differ. exact Hlc.
  - rewrite Hk3 by differ. exact Hlm.
  - rewrite Hk3 by differ. rewrite Hk2 by differ. exact Hn1.
  - rewrite Hk3 by differ. exact Hn2.
  - rewrite Hk3 by differ. rewrite Hk2 by differ. rewrite Hk1 by differ.
    destruct (dict_lookup row "user_id") as [[| | |s| |]|]; try discriminate.
    apply String.eqb_eq in Hu. subst s. reflexivity.
  - intros k Hk. cbn [In] in Hk.
    rewrite Hk3, Hk2, Hk1; try reflexivity;
      intros ->; apply Hk; tauto.
Qed.

Lemma is_user_has_key (uid : string) (r : dict) :
  is_user uid r = true -> has_key r "user_id" = true.
Proof.
  unfold is_user, has_key. destruct (dict_lookup r "user_id"); [reflexivity|discriminate].
Qed.

Lemma select_user_found (uid : string) (records : list dict) (row : dict)
    (rest : list dict) :
  filter (is_user uid) records = row :: rest ->
  select_user uid records = Ok (row :: rest).
Proof.
  intros H. unfold select_user.
  assert (Hin : In row (filter (is_user uid) records)) by (rewrite H; left; reflexivity).
  apply filter_In in Hin as [Hin Hu].
  replace (existsb (fun r => has_key r "user_id") records) with true.
  - rewrite H. reflexivity.
  - symmetry. apply existsb_exists. exists row. split; [exact Hin|].
    apply is_user_has_key with uid. exact Hu.
Qed.

(** X2. A user with no row in a profile sheet that has rows: indexing the
    empty selection raises [IndexError], which is caught, and the function
    returns no profile and no audit data. *)
Theorem unknown_user_not_fetched (uid : string) (profile_records : list dict) :
  get_all_records "skin_profile" = Ok profile_records ->
  existsb (fun r => has_key r "user_id") profile_records = true ->
  filter (is_user uid) profile_records = [] ->
  get_user_data get_all_records json_loads uid
  = ((None, None), [UiFetchFailed IndexError; UiShareHint]).
Proof.
  intros Hp Hcol Hnone.
  unfold get_user_data, fetch_user_data, and_then, select_user.
  rewrite Hp, Hcol, Hnone. reflexivity.
Qed.

(** X3. An audit sheet without data rows hides the profile: the frame
    built from no records has no [user_id] column, the [KeyError] is
    caught, and the function returns no profile although the profile row
    was found. *)
Theorem empty_audit_sheet_hides_profile (uid : string)
    (profile_records : list dict) (row : dict) (rest : list dict) :
  get_all_records "skin_profile" = Ok profile_records ->
  filter (is_user uid) profile_records = row :: rest ->
  get_all_records "routine_audit" = Ok [] ->
  get_user_data get_all_records json_loads uid
  = ((None, None), [UiFetchFailed (KeyError "user_id"); UiShareHint]).
Proof.
  intros Hp Hrow Ha.
  unfold get_user_data, fetch_user_data.
  rewrite Hp. cbn [and_then].
  rewrite (select_user_found _ _ Hrow). cbn [and_then first_item].
  rewrite Ha. reflexivity.
Qed.

(** X4. When the fetch fails, a run of the script still handles the input,
    with the generic prompt: a text turn completes unless the answer holds
    a sentinel that starts no line, and an image turn completes. *)
Theorem failed_fetch_degrades (env : Env) (e : exn) (prompt : string)
    (uploaded_file : Upload) (w : World) :
  fetch_user_data get_all_records json_loads USER_ID = Raise e ->
  script_run get_all_records json_loads env (Some (TextTurn prompt)) w
  = chat_turn env None None prompt w /\
  fst (script_run get_all_records json_loads env (Some (TextTurn prompt)) w)
  = match extract_query (turn_answer env w prompt) with
    | Ok _ => Ok tt
    | Raise x => Raise x
    end /\
  fst (script_run get_all_records json_loads env (Some (ImageTurn uploaded_file)) w)
  = Ok tt /\
  messages (snd (script_run get_all_records json_loads env
                            (Some (ImageTurn uploaded_file)) w))
  = match generate_content env Prompt.FALLBACK_PROMPT
            "Analyze this image of my skin and tell me what you see."
            uploaded_file with
    | Ok analysis =>
        messages w
        ++ [mkMsg "user" (" (Image: " ++ file_name uploaded_file ++ ")")%string;
            mkMsg "assistant" analysis]
    | Raise _ => messages w
    end.
Proof.
  intros He. unfold script_run, get_user_data. rewrite He. cbn [fst run_turn].
  split; [reflexivity|]. split; [rewrite chat_turn_outcome; reflexivity|].
  unfold_script. cbn.
  destruct (generate_content env _ _ _); cbn; [|split; reflexivity].
  split; [reflexivity|]. rewrite <- app_assoc. reflexivity.
Qed.

End FetchFacts.

Lemma get_user_data_decodes_row_witness :
  exists profile_records row rest audit_records concerns meds avoid,
    stub_sheets (other_user_row :: seed_audit) "skin_profile" = Ok profile_records /\
    filter (is_user USER_ID) profile_records = row :: rest /\
    stub_sheets (other_user_row :: seed_audit) "routine_audit" = Ok audit_records /\
    seed_audit = filter (is_user USER_ID) audit_records /\
    stub_loads (dict_get row "current_concerns_json" (PStr "{}")) = Ok concerns /\
    stub_loads (dict_get row "active_medications_json" (PStr "[]")) = Ok meds /\
    stub_loads (dict_get row "avoid_ingredients_json" (PStr "[]")) = Ok avoid /\
    dict_lookup (fst (stub_fetch (other_user_row :: seed_audit))) "current_concerns"
    = Some concerns /\
    dict_lookup (fst (stub_fetch (other_user_row :: seed_audit))) "active_medications"
    = Some meds /\
    dict_lookup (fst (stub_fetch (other_user_row :: seed_audit))) "avoid_ingredients"
    = Some avoid /\
    dict_lookup (fst (stub_fetch (other_user_row :: seed_audit))) "current_concerns_json"
    = None /\
    dict_lookup (fst (stub_fetch (other_user_row :: seed_audit))) "active_medications_json"
    = None /\
    dict_lookup (fst (stub_fetch (other_user_row :: seed_audit))) "avoid_ingredients_json"
    = None /\
    dict_lookup (fst (stub_fetch (other_user_row :: seed_audit))) "user_id"
    = Some (PStr USER_ID) /\
    (forall k,
        ~ In k ["current_concerns_json"; "active_medications_json";
                "avoid_ingredients_json"; "current_concerns";
                "active_medications"; "avoid_ingredients"] ->
        dict_lookup (fst (stub_fetch (other_user_row :: seed_audit))) k
        = dict_lookup row k) /\
    @nil fetch_event = [].
Proof.
  apply (@get_user_data_decodes_row
           (stub_sheets (other_user_row :: seed_audit)) stub_loads USER_ID
           (fst (stub_fetch (other_user_row :: seed_audit))) seed_audit []).
  vm_compute. reflexivity.
Defined.

Lemma unknown_user_not_fetched_witness :
  get_user_data (stub_sheets seed_audit) stub_loads "someone-else"
  = ((None, None), [UiFetchFailed IndexError; UiShareHint]).
Proof.
  apply (@unknown_user_not_fetched (stub_sheets seed_audit) stub_loads
           "someone-else" [sheet_profile_row]); reflexivity.
Defined.

Lemma empty_audit_sheet_hides_profile_witness :
  get_user_data (stub_sheets []) stub_loads USER_ID
  = ((None, None), [UiFetchFailed (KeyError "user_id"); UiShareHint]).
Proof.
  apply (@empty_audit_sheet_hides_profile (stub_sheets []) stub_loads USER_ID
           [sheet_profile_row] sheet_profile_row []); reflexivity.
Defined.

Lemma failed_fetch_degrades_witness :
  script_run no_sheets stub_loads working_sheet
             (Some (TextTurn "my cheeks are red")) empty_world
  = chat_turn working_sheet None None "my cheeks are red" empty_world /\
  fst (script_run no_sheets stub_loads working_sheet
                  (Some (TextTurn "my cheeks are red")) empty_world)
  = match extract_query (turn_answer working_sheet empty_world "my cheeks are red") with
    | Ok _ => Ok tt
    | Raise x => Raise x
    end /\
  fst (script_run no_sheets stub_loads working_sheet
                  (Some (ImageTurn cheek_photo)) empty_world)
  = Ok tt /\
  messages (snd (script_run no_sheets stub_loads working_sheet
                            (Some (ImageTurn cheek_photo)) empty_world))
  = match generate_content working_sheet Prompt.FALLBACK_PROMPT
            "Analyze this image of my skin and tell me what you see."
            cheek_photo with
    | Ok analysis =>
        messages empty_world
        ++ [mkMsg "user" (" (Image: " ++ file_name cheek_photo ++ ")")%string;
            mkMsg "assistant" analysis]
    | Raise _ => messages empty_world
    end.
Proof.
  apply (@failed_fetch_degrades no_sheets stub_loads working_sheet
           (ServiceError "APIError") "my cheeks are red" cheek_photo empty_world).
  reflexivity.
Defined.

(** ** The text turn *)

(** X5. The text turn builds the system prompt and never sends it: a turn
    runs the same way, request by request and row by row, on any two
    profiles for which the builder succeeds. *)
Theorem system_prompt_not_sent (env : Env) (p p' : option dict)
    (a a' : option (list dict)) (prompt : string) (w : World)
    (sp sp' : string) :
  Prompt.construct_system_prompt p a = Ok sp ->
  Prompt.construct_system_prompt p' a' = Ok sp' ->
  chat_turn env p a prompt w = chat_turn env p' a' prompt w.
Proof.
  intros H H'. rewrite !chat_turn_run. unfold after_turn.
  rewrite H, H'. reflexivity.
Qed.

Lemma system_prompt_not_sent_witness :
  chat_turn finds_product (Some seed_profile) (Some seed_audit)
            "my cheeks are red" empty_world
  = chat_turn finds_product None None "my cheeks are red" empty_world.
Proof.
  apply (@system_prompt_not_sent finds_product (Some seed_profile) None
           (Some seed_audit) None "my cheeks are red" empty_world
           (match Prompt.construct_system_prompt (Some seed_profile) (Some seed_audit)
            with Ok s => s | Raise _ => EmptyString end)
           Prompt.FALLBACK_PROMPT);
    vm_compute; reflexivity.
Defined.

(** The announcement a text turn adds for an answer, if a link is found. *)
Lemma after_response_messages (env : Env) (prompt fr : string) (w : World) :
  messages (snd (after_response env prompt fr w))
  = messages w
    ++ match log_fields env fr with
       | Some (_, _, Some url) => [product_message url]
       | _ => []
       end.
Proof.
  unfold after_response, log_fields.
  destruct (extract_query fr) as [[q|]|e]; cbv zeta.
  - destruct (product_of _) as [url|]; cbn [snd]; rewrite logged_messages;
      cbn; rewrite ?app_nil_r; reflexivity.
  - cbn [snd]. rewrite logged_messages, app_nil_r. reflexivity.
  - cbn. rewrite app_nil_r. reflexivity.
Qed.

Lemma after_response_searches (env : Env) (prompt fr : string) (w : World) :
  searches (snd (after_response env prompt fr w))
  = searches w
    ++ match extract_query fr with
       | Ok (Some q) => [((q ++ " site:amazon.ca")%string, 3)]
       | _ => []
       end.
Proof.
  unfold after_response.
  destruct (extract_query fr) as [[q|]|e]; cbv zeta.
  - destruct (product_of _) as [url|]; cbn [snd]; rewrite logged_searches;
      reflexivity.
  - cbn [snd]. rewrite logged_searches, app_nil_r. reflexivity.
  - cbn. rewrite app_nil_r. reflexivity.
Qed.

(** X6. A completed text turn extends the transcript, in this order, by
    the user's message, the product announcement when a link was found,
    and the answer; what was in the transcript stays. *)
Theorem text_turn_transcript (env : Env) (p : option dict)
    (a : option (list dict)) (prompt : string) (w w' : World) :
  chat_turn env p a prompt w = (Ok tt, w') ->
  messages w'
  = messages w
    ++ [mkMsg "user" prompt]
    ++ match log_fields env (turn_answer env w prompt) with
       | Some (_, _, Some url) =>
           [mkMsg "assistant"
              ("Here is a recommended product: [View on Amazon.ca](" ++ url ++ ")")%string]
       | _ => []
       end
    ++ [mkMsg "assistant" (turn_answer env w prompt)].
Proof.
  rewrite chat_turn_run. unfold after_turn, turn_answer. cbv zeta.
  destruct (Prompt.construct_system_prompt p a) as [sp|e]; [|discriminate].
  set (reply := send_message env _).
  set (w2 := add_ui _ _).
  pose proof (after_response_messages env prompt (answer_of reply) w2) as H.
  destruct (after_response env prompt (answer_of reply) w2) as [[[]|e] w3];
    [|discriminate].
  intros Heq; inversion Heq; subst w'; clear Heq.
  cbn [snd messages add_message add_ui add_request w2] in *.
  rewrite H. rewrite <- !app_assoc. reflexivity.
Qed.

Lemma text_turn_transcript_witness :
  messages (snd (chat_turn finds_product None None "my cheeks are red" empty_world))
  = messages empty_world
    ++ [mkMsg "user" "my cheeks are red"]
    ++ match log_fields finds_product
               (turn_answer finds_product empty_world "my cheeks are red") with
       | Some (_, _, Some url) =>
           [mkMsg "assistant"
              ("Here is a recommended product: [View on Amazon.ca](" ++ url ++ ")")%string]
       | _ => []
       end
    ++ [mkMsg "assistant" (turn_answer finds_product empty_world "my cheeks are red")].
Proof.
  apply (@text_turn_transcript finds_product None None "my cheeks are red"
           empty_world
           (snd (chat_turn finds_product None None "my cheeks are red" empty_world))).
  vm_compute. reflexivity.
Defined.

(** X7. A text turn that ends in an exception has put the user's message
    into the transcript and nothing else: no answer, no row in the log and
    no search. *)
Theorem failed_turn_state (env : Env) (p : option dict)
    (a : option (list dict)) (prompt : string) (w w' : World) (e : exn) :
  chat_turn env p a prompt w = (Raise e, w') ->
  messages w' = messages w ++ [mkMsg "user" prompt] /\
  log_rows w' = log_rows w /\
  searches w' = searches w.
Proof.
  rewrite chat_turn_run. unfold after_turn. cbv zeta.
  destruct (Prompt.construct_system_prompt p a) as [sp|e0].
  - set (reply := send_message env _).
    set (w2 := add_ui _ _).
    unfold after_response.
    destruct (extract_query (answer_of reply)) as [[q|]|e1]; cbv zeta.
    + destruct (product_of _); discriminate.
    + discriminate.
    + intros H; inversion H; subst. repeat split.
  - intros H; inversion H; subst. repeat split.
Qed.

Lemma failed_turn_state_witness :
  messages (snd (chat_turn (stub_env ([midline_text], None) (Ok []) None)
                           None None "my cheeks are red" empty_world))
  = messages empty_world ++ [mkMsg "user" "my cheeks are red"] /\
  log_rows (snd (chat_turn (stub_env ([midline_text], None) (Ok []) None)
                           None None "my cheeks are red" empty_world))
  = log_rows empty_world /\
  searches (snd (chat_turn (stub_env ([midline_text], None) (Ok []) None)
                           None None "my cheeks are red" empty_world))
  = searches empty_world.
Proof.
  apply (@failed_turn_state (stub_env ([midline_text], None) (Ok []) None)
           None None "my cheeks are red" empty_world
           (snd (chat_turn (stub_env ([midline_text], None) (Ok []) None)
                           None None "my cheeks are red" empty_world))
           IndexError).
  vm_compute. reflexivity.
Defined.

(** X8. A text turn makes one search, for the extracted query followed by
    the site restriction and for three results, exactly when a query was
    extracted from the answer (an empty query included), and none
    otherwise. *)
Theorem text_turn_searches (env : Env) (p : option dict)
    (a : option (list dict)) (prompt : string) (w : World) :
  searches (snd (chat_turn env p a prompt w))
  = searches w
    ++ match Prompt.construct_system_prompt p a,
             extract_query (turn_answer env w prompt) with
       | Ok _, Ok (Some q) => [((q ++ " site:amazon.ca")%string, 3)]
       | _, _ => []
       end.
Proof.
  rewrite chat_turn_run. unfold after_turn, turn_answer. cbv zeta.
  destruct (Prompt.construct_system_prompt p a) as [sp|e];
    [|cbn; rewrite app_nil_r; reflexivity].
  set (reply := send_message env _).
  set (w2 := add_ui _ _).
  pose proof (after_response_searches env prompt (answer_of reply) w2) as H.
  destruct (after_response env prompt (answer_of reply) w2) as [[[]|e] w3];
    cbn [snd searches add_message] in *; rewrite H; reflexivity.
Qed.

Example bare_sentinel_searches :
  searches (snd (chat_turn (stub_env (["SEARCH:"], None) (Ok []) None)
                           None None "my cheeks are red" empty_world))
  = [(" site:amazon.ca", 3)].
Proof. vm_compute; reflexivity. Qed.

(** ** The image turn *)

Lemma analyze_image_run (env : Env) (p : option dict) (a : option (list dict))
    (uploaded_file : Upload) (w : World) :
  analyze_image env p a uploaded_file w
  = match Prompt.construct_system_prompt p a with
    | Raise e => (Raise e, w)
    | Ok sp =>
        match generate_content env sp
                "Analyze this image of my skin and tell me what you see."
                uploaded_file with
        | Ok analysis =>
            (Ok tt,
             add_message (mkMsg "assistant" analysis)
               (add_message
                  (mkMsg "user" (" (Image: " ++ file_name uploaded_file ++ ")")%string)
                  w))
        | Raise e => (Ok tt, add_ui [UiImageFailed e] w)
        end
    end.
Proof.
  unfold_script.
  destruct (Prompt.construct_system_prompt p a) as [sp|e]; [|reflexivity].
  destruct (generate_content env sp _ uploaded_file); reflexivity.
Qed.

(** X9. Once the prompt is built, the image turn never raises: a failed
    analysis is reported on the page and leaves the transcript as it was, a
    successful one adds the image marker and the analysis, both or none.
    In neither case does the turn log, search or call the chat endpoint. *)
Theorem image_turn_all_or_nothing (env : Env) (p : option dict)
    (a : option (list dict)) (uploaded_file : Upload) (w : World) (sp : string) :
  Prompt.construct_system_prompt p a = Ok sp ->
  let out := analyze_image env p a uploaded_file w in
  fst out = Ok tt /\
  log_rows (snd out) = log_rows w /\
  searches (snd out) = searches w /\
  gen_requests (snd out) = gen_requests w /\
  match generate_content env sp
          "Analyze this image of my skin and tell me what you see."
          uploaded_file with
  | Ok analysis =>
      messages (snd out)
      = messages w
        ++ [mkMsg "user" (" (Image: " ++ file_name uploaded_file ++ ")")%string;
            mkMsg "assistant" analysis] /\
      ui (snd out) = ui w
  | Raise e =>
      messages (snd out) = messages w /\
      ui (snd out) = ui w ++ [UiImageFailed e]
  end.
Proof.
  intros Hp. cbv zeta. rewrite analyze_image_run, Hp.
  destruct (generate_content env sp _ uploaded_file); cbn;
    repeat split; try reflexivity.
  rewrite <- app_assoc. reflexivity.
Qed.

Lemma image_turn_all_or_nothing_witness :
  let out := analyze_image working_sheet (Some seed_profile) (Some seed_audit)
                           cheek_photo empty_world in
  fst out = Ok tt /\
  log_rows (snd out) = log_rows empty_world /\
  searches (snd out) = searches empty_world /\
  gen_requests (snd out) = gen_requests empty_world /\
  match generate_content working_sheet
          (match Prompt.construct_system_prompt (Some seed_profile) (Some seed_audit)
           with Ok s => s | Raise _ => EmptyString end)
          "Analyze this image of my skin and tell me what you see."
          cheek_photo with
  | Ok analysis =>
      messages (snd out)
      = messages empty_world
        ++ [mkMsg "user" (" (Image: " ++ file_name cheek_photo ++ ")")%string;
            mkMsg "assistant" analysis] /\
      ui (snd out) = ui empty_world
  | Raise e =>
      messages (snd out) = messages empty_world /\
      ui (snd out) = ui empty_world ++ [UiImageFailed e]
  end.
Proof.
  apply (@image_turn_all_or_nothing working_sheet (Some seed_profile)
           (Some seed_audit) cheek_photo empty_world
           (match Prompt.construct_system_prompt (Some seed_profile) (Some seed_audit)
            with Ok s => s | Raise _ => EmptyString end)).
  vm_compute. reflexivity.
Defined.

(** ** Sessions *)

Lemma log_fields_none (env : Env) (fr : string) (w : World) (prompt : string) :
  log_fields env fr = None <->
  exists e, fst (after_response env prompt fr w) = Raise e.
Proof.
  rewrite after_response_outcome. unfold log_fields.
  destruct (extract_query fr) as [[q|]|e]; split; intros H;
    try discriminate; try (destruct H; discriminate).
  - eexists; reflexivity.
  - reflexivity.
Qed.

Lemma run_turn_messages (env : Env) (p : option dict) (a : option (list dict))
    (t : turn) (w : World) :
  messages (snd (run_turn env p a t w)) = messages w ++ turn_messages env p a t w.
Proof.
  destruct t as [prompt|uploaded_file]; cbn [run_turn]; unfold turn_messages.
  - rewrite chat_turn_run. unfold after_turn, turn_answer. cbv zeta.
    destruct (Prompt.construct_system_prompt p a) as [sp|e]; [|reflexivity].
    set (reply := send_message env _).
    set (w2 := add_ui _ _).
    pose proof (after_response_messages env prompt (answer_of reply) w2) as H.
    pose proof (log_fields_none env (answer_of reply) w2 prompt) as Hn.
    destruct (after_response env prompt (answer_of reply) w2) as [[[]|e] w3];
      cbn [fst snd messages add_message add_ui add_request w2] in *.
    + rewrite H.
      destruct (log_fields env (answer_of reply)) as [[[sev pn] [url|]]|].
      * rewrite <- !app_assoc. reflexivity.
      * rewrite <- !app_assoc. reflexivity.
      * destruct Hn as [Hn _]. destruct (Hn eq_refl); discriminate.
    + rewrite H.
      assert (Hl : log_fields env (answer_of reply) = None)
        by (apply Hn; eexists; reflexivity).
      rewrite Hl. rewrite app_nil_r. reflexivity.
  - rewrite analyze_image_run.
    destruct (Prompt.construct_system_prompt p a) as [sp|e];
      [|cbn; rewrite app_nil_r; reflexivity].
    destruct (generate_content env sp _ uploaded_file); cbn.
    + rewrite <- app_assoc. reflexivity.
    + rewrite app_nil_r. reflexivity.
Qed.

Lemma run_turn_rows (env : Env) (p : option dict) (a : option (list dict))
    (t : turn) (w : World) :
  log_rows (snd (run_turn env p a t w)) = log_rows w ++ turn_rows env p a t w.
Proof.
  destruct t as [prompt|uploaded_file]; cbn [run_turn turn_rows].
  - rewrite chat_turn_rows.
    destruct (Prompt.construct_system_prompt p a) as [sp|e];
      [|rewrite app_nil_r; reflexivity].
    destruct (turn_row env w prompt) as [r|]; [|rewrite app_nil_r; reflexivity].
    unfold rows_after. destruct (append_fault env (log_rows w) r);
      [rewrite app_nil_r|]; reflexivity.
  - rewrite analyze_image_rows, app_nil_r. reflexivity.
Qed.

Lemma turn_row_text_row (env : Env) (w : World) (prompt : string) (r : Row) :
  turn_row env w prompt = Some r -> text_row r.
Proof.
  unfold turn_row, log_fields, text_row.
  destruct (extract_query (turn_answer env w prompt)) as [[q|]|e];
    [| |discriminate]; intros H; inversion H; subst r; cbn.
  - repeat split. right. repeat split; [discriminate|].
    intros url Hu. destruct (search env (full_query_of q) 3) as [urls|e];
      cbn in Hu; [|discriminate].
    apply find_is_product_link with urls. exact Hu.
  - repeat split. left. repeat split.
Qed.

Lemma turn_rows_text (env : Env) (p : option dict) (a : option (list dict))
    (t : turn) (w : World) :
  Forall text_row (turn_rows env p a t w) /\
  length (turn_rows env p a t w) <= count_text [t].
Proof.
  destruct t as [prompt|uploaded_file]; cbn [turn_rows count_text];
    [|split; [constructor | auto]].
  destruct (Prompt.construct_system_prompt p a) as [sp|e];
    [|split; [constructor | auto]].
  destruct (turn_row env w prompt) as [r|] eqn:Er; [|split; [constructor | auto]].
  destruct (append_fault env (log_rows w) r); [split; [constructor | auto]|].
  split; [|auto]. constructor; [|constructor].
  apply turn_row_text_row with env w prompt. exact Er.
Qed.

Section SessionFacts.

Variable get_all_records : string -> result (list dict).
Variable json_loads : pyval -> result pyval.
Variable env : Env.

Lemma script_run_is_turn (t : turn) (w : World) :
  script_run get_all_records json_loads env (Some t) w
  = run_turn env
      (fst (fst (get_user_data get_all_records json_loads USER_ID)))
      (snd (fst (get_user_data get_all_records json_loads USER_ID))) t w.
Proof.
  unfold script_run.
  destruct (fst (get_user_data get_all_records json_loads USER_ID)); reflexivity.
Qed.

(** X10. Over a whole session the interaction log only grows: the rows
    that were there stay, in place; there is at most one new row per text
    turn and none for an image turn; every new row carries the fixed user
    id and the input type text, and has either severity 3 with no product
    or severity 5 with a product name and, if a link is filled in, a link
    that passed the product-link test. *)
Theorem session_log_append_only (inputs : list turn) (w : World) :
  exists new_rows,
    log_rows (run_session get_all_records json_loads env inputs w)
    = log_rows w ++ new_rows /\
    length new_rows <= count_text inputs /\
    Forall text_row new_rows.
Proof.
  revert w. induction inputs as [|t rest IH]; intros w; cbn [run_session].
  - exists []. rewrite app_nil_r. repeat split; auto.
  - destruct (IH (snd (script_run get_all_records json_loads env (Some t) w)))
      as (more & Hrows & Hlen & Hall).
    rewrite script_run_is_turn in *. rewrite run_turn_rows in Hrows.
    set (p := fst (fst (get_user_data get_all_records json_loads USER_ID))) in *.
    set (a := snd (fst (get_user_data get_all_records json_loads USER_ID))) in *.
    destruct (turn_rows_text env p a t w) as [Ht Hl].
    exists (turn_rows env p a t w ++ more).
    rewrite Hrows, <- app_assoc. split; [reflexivity|]. split.
    + rewrite length_app. destruct t; cbn [count_text] in *; lia.
    + apply Forall_app. split; assumption.
Qed.

Lemma turn_messages_roles (p : option dict) (a : option (list dict))
    (t : turn) (w : World) :
  Forall user_or_assistant (turn_messages env p a t w) /\
  length (turn_messages env p a t w) <= 3.
Proof.
  assert (Hall : forall ms, (forall m, In m ms -> user_or_assistant m) ->
                            Forall user_or_assistant ms)
    by (intros ms; apply Forall_forall).
  unfold turn_messages, user_or_assistant in *.
  destruct (Prompt.construct_system_prompt p a) as [sp|e]; destruct t as [prompt|f].
  - destruct (log_fields env (turn_answer env w prompt)) as [[[sev pn] [url|]]|];
      (split; [apply Hall; cbn; intros m Hm; intuition (subst; cbn; auto) | cbn; lia]).
  - destruct (generate_content env sp _ f);
      (split; [apply Hall; cbn; intros m Hm; intuition (subst; cbn; auto) | cbn; lia]).
  - split; [apply Hall; cbn; intros m Hm; intuition (subst; cbn; auto) | cbn; lia].
  - split; [constructor | cbn; lia].
Qed.

(** X11. Over a whole session the transcript only grows: what was there
    stays, in place; every added message has the role user or assistant;
    a turn adds at most three messages. *)
Theorem session_transcript_append_only (inputs : list turn) (w : World) :
  exists added,
    messages (run_session get_all_records json_loads env inputs w)
    = messages w ++ added /\
    length added <= 3 * length inputs /\
    Forall user_or_assistant added.
Proof.
  revert w. induction inputs as [|t rest IH]; intros w; cbn [run_session].
  - exists []. rewrite app_nil_r. repeat split; auto.
  - destruct (IH (snd (script_run get_all_records json_loads env (Some t) w)))
      as (more & Hm & Hlen & Hall).
    rewrite script_run_is_turn in *. rewrite run_turn_messages in Hm.
    set (p := fst (fst (get_user_data get_all_records json_loads USER_ID))) in *.
    set (a := snd (fst (get_user_data get_all_records json_loads USER_ID))) in *.
    destruct (turn_messages_roles p a t w) as [Hr Hl].
    exists (turn_messages env p a t w ++ more).
    rewrite Hm, <- app_assoc. split; [reflexivity|]. split.
    + rewrite length_app. cbn [length]. lia.
    + apply Forall_app. split; assumption.
Qed.

Lemma run_turn_links (p : option dict) (a : option (list dict)) (t : turn)
    (w : World) :
  links_announced w -> links_announced (snd (run_turn env p a t w)).
Proof.
  unfold links_announced. intros Hw r url Hin Hlink.
  rewrite run_turn_messages. rewrite run_turn_rows in Hin.
  apply in_app_or in Hin as [Hin|Hin].
  - apply in_or_app. left. eapply Hw; eauto.
  - apply in_or_app. right.
    destruct t as [prompt|f]; cbn [turn_rows] in Hin; [|destruct Hin].
    unfold turn_messages.
    destruct (Prompt.construct_system_prompt p a) as [sp|e]; [|destruct Hin].
    unfold turn_row in Hin.
    destruct (log_fields env (turn_answer env w prompt)) as [[[sev pn] pl]|];
      [|destruct Hin].
    destruct (append_fault env (log_rows w) _); [destruct Hin|].
    destruct Hin as [<-|[]]. cbn in Hlink. subst pl.
    right. left. reflexivity.
Qed.

(** X12. Every product link in the log was announced in the chat: if each
    logged link has its announcement in the transcript before a session,
    the same holds after it, whatever the turns and their outcomes. *)
Theorem links_announced_preserved (inputs : list turn) (w : World) :
  links_announced w ->
  links_announced (run_session get_all_records json_loads env inputs w).
Proof.
  revert w. induction inputs as [|t rest IH]; intros w Hw; cbn [run_session].
  - exact Hw.
  - apply IH. rewrite script_run_is_turn. apply run_turn_links. exact Hw.
Qed.

End SessionFacts.

Lemma links_announced_preserved_witness :
  links_announced
    (run_session no_sheets stub_loads finds_product three_inputs empty_world).
Proof.
  apply (@links_announced_preserved no_sheets stub_loads finds_product
           three_inputs empty_world).
  intros r url Hin. simpl in Hin. destruct Hin.
Defined.

Example session_with_links :
  map recommended_product_link
      (log_rows (run_session no_sheets stub_loads finds_product three_inputs
                             empty_world))
  = [Some moisturizer_url; Some moisturizer_url].
Proof. vm_compute; reflexivity. Qed.

(** ** More on strings *)

Lemma str_app_assoc (a b c : string) :
  ((a ++ b) ++ c = a ++ (b ++ c))%string.
Proof. induction a as [|x a IH]; simpl; [reflexivity | rewrite IH; reflexivity]. Qed.

Lemma str_app_nil_r (a : string) : (a ++ "")%string = a.
Proof. induction a as [|x a IH]; simpl; [reflexivity | rewrite IH; reflexivity]. Qed.

(** [sub in s] says that [s] is some text, then [sub], then some text. *)
Lemma contains_spec (sub s : string) :
  Py.contains sub s = true <-> exists a b, s = (a ++ sub ++ b)%string.
Proof.
  split.
  - induction s as [|c s IH]; simpl; intros H.
    + apply startswith_empty_r in H. subst sub.
      exists EmptyString, EmptyString. reflexivity.
    + apply orb_true_iff in H as [H|H].
      * change (match sub with
                | EmptyString => true
                | String a p' => (a =? c)%char && Py.startswith p' s
                end) with (Py.startswith sub (String c s)) in H.
        destruct (startswith_inv _ _ H) as [rest ->].
        exists EmptyString, rest. reflexivity.
      * destruct (IH H) as (a & b & ->).
        exists (String c a), b. reflexivity.
  - intros (a & b & ->). induction a as [|c a IH].
    + simpl String.append. destruct (sub ++ b)%string eqn:E.
      * destruct sub; [reflexivity | discriminate].
      * simpl. apply orb_true_iff. left.
        change (match sub with
                | EmptyString => true
                | String a0 p' => (a0 =? a)%char && Py.startswith p' s
                end) with (Py.startswith sub (String a s)).
        rewrite <- E. apply startswith_self_app.
    + simpl. apply orb_true_iff. right. exact IH.
Qed.

Lemma contains_trans (a b c : string) :
  Py.contains a b = true -> Py.contains b c = true -> Py.contains a c = true.
Proof.
  rewrite !contains_spec. intros (x & y & ->) (u & v & ->).
  exists (u ++ x)%string, (y ++ v)%string.
  rewrite !str_app_assoc. reflexivity.
Qed.

Lemma contains_refl (s : string) : Py.contains s s = true.
Proof.
  apply contains_spec. exists EmptyString, EmptyString.
  simpl. rewrite str_app_nil_r. reflexivity.
Qed.

Lemma contains_app_l (sub a b : string) :
  Py.contains sub a = true -> Py.contains sub (a ++ b) = true.
Proof.
  rewrite !contains_spec. intros (x & y & ->).
  exists x, (y ++ b)%string. rewrite !str_app_assoc. reflexivity.
Qed.

Lemma contains_app_r (sub a b : string) :
  Py.contains sub b = true -> Py.contains sub (a ++ b) = true.
Proof.
  rewrite !contains_spec. intros (x & y & ->).
  exists (a ++ x)%string, y. rewrite !str_app_assoc. reflexivity.
Qed.

(** A joined text holds each of its parts. *)
Lemma contains_join (sep part : string) (parts : list string) :
  In part parts -> Py.contains part (Py.join sep parts) = true.
Proof.
  induction parts as [|p ps IH]; intros Hin; [destruct Hin|].
  destruct ps as [|q qs].
  - destruct Hin as [->|[]]. apply contains_refl.
  - change (Py.join sep (p :: q :: qs))
      with (p ++ sep ++ Py.join sep (q :: qs))%string.
    destruct Hin as [->|Hin].
    + apply contains_app_l, contains_refl.
    + apply contains_app_r, contains_app_r, IH. exact Hin.
Qed.

(** Stripping. *)

Lemma lstrip_head (s : string) :
  Py.lstrip s = EmptyString \/
  exists c r, Py.lstrip s = String c r /\ Py.isspace c = false.
Proof.
  induction s as [|c s IH]; simpl; [left; reflexivity|].
  destruct (Py.isspace c) eqn:E; [exact IH|].
  right. exists c, s. split; [reflexivity | exact E].
Qed.

Lemma rstrip_idem (s : string) : Py.rstrip (Py.rstrip s) = Py.rstrip s.
Proof.
  induction s as [|c s IH]; simpl; [reflexivity|].
  destruct (Py.rstrip s) as [|c' r] eqn:E.
  - destruct (Py.isspace c) eqn:Ec; simpl; [reflexivity|].
    rewrite Ec. reflexivity.
  - change (Py.rstrip (String c (String c' r)))
      with (match Py.rstrip (String c' r) with
            | EmptyString => if Py.isspace c then EmptyString else String c EmptyString
            | String a b => String c (String a b)
            end).
    rewrite IH. reflexivity.
Qed.

Lemma rstrip_keeps_head (c : ascii) (s : string) :
  Py.isspace c = false -> exists r, Py.rstrip (String c s) = String c r.
Proof.
  intros Hc. simpl. destruct (Py.rstrip s) as [|c' r].
  - rewrite Hc. eexists; reflexivity.
  - eexists; reflexivity.
Qed.

Lemma strip_idem (s : string) : Py.strip (Py.strip s) = Py.strip s.
Proof.
  unfold Py.strip.
  destruct (lstrip_head s) as [H|(c & r & H & Hc)]; rewrite H.
  - reflexivity.
  - destruct (@rstrip_keeps_head c r Hc) as [r' Hr]. rewrite Hr.
    simpl Py.lstrip. rewrite Hc. rewrite <- Hr. apply rstrip_idem.
Qed.

Lemma lstrip_app (a t : string) :
  Py.lstrip a <> EmptyString -> Py.lstrip (a ++ t) = (Py.lstrip a ++ t)%string.
Proof.
  induction a as [|c a IH]; simpl; intros H; [congruence|].
  destruct (Py.isspace c); [apply IH; exact H | reflexivity].
Qed.

Lemma rstrip_app (a b : string) :
  Py.rstrip b <> EmptyString -> Py.rstrip (a ++ b) = (a ++ Py.rstrip b)%string.
Proof.
  intros H. induction a as [|c a IH]; simpl; [reflexivity|].
  rewrite IH. destruct (a ++ Py.rstrip b)%string eqn:E; [|reflexivity].
  destruct a; simpl in E; [congruence | discriminate].
Qed.

(** A part of a text that has something other than white space on both
    sides is still there after stripping. *)
Lemma strip_keeps_inner (a mid b : string) :
  Py.lstrip a <> EmptyString -> Py.rstrip b <> EmptyString ->
  Py.contains mid (Py.strip (a ++ mid ++ b)) = true.
Proof.
  intros Ha Hb. unfold Py.strip.
  rewrite lstrip_app by exact Ha.
  rewrite <- str_app_assoc, rstrip_app by exact Hb.
  apply contains_app_l, contains_app_r, contains_refl.
Qed.

(** The characters of the pieces. *)

Lemma lstrip_chars (c : ascii) (s : string) :
  In c (chars_of (Py.lstrip s)) -> In c (chars_of s).
Proof.
  induction s as [|x s IH]; simpl; [auto|].
  destruct (Py.isspace x); [right; auto | auto].
Qed.

Lemma rstrip_chars (c : ascii) (s : string) :
  In c (chars_of (Py.rstrip s)) -> In c (chars_of s).
Proof.
  induction s as [|x s IH]; simpl; [auto|].
  destruct (Py.rstrip s) as [|y r].
  - destruct (Py.isspace x); simpl; [intros [] | intros [H|[]]; auto].
  - intros [H|H]; [left; exact H | right; apply IH; exact H].
Qed.

Lemma replace_from_chars (old : string) (c : ascii) (s : string) (k : nat) :
  In c (chars_of (Py.replace_from old EmptyString k s)) -> In c (chars_of s).
Proof.
  revert k. induction s as [|x s IH]; intros k.
  - destruct old; simpl; auto.
  - destruct k as [|k]; [|simpl; intros H; right; eapply IH; exact H].
    destruct old as [|a old].
    + simpl. intros [H|H]; [left; exact H | right; eapply IH; exact H].
    + cbn [Py.replace_from].
      destruct (Py.startswith (String a old) (String x s)).
      * simpl String.append. intros H; right; eapply IH; exact H.
      * simpl. intros [H|H]; [left; exact H | right; eapply IH; exact H].
Qed.

Lemma split_pieces_no_sep (sep : ascii) (t l : string) :
  In l (Py.split sep t) -> ~ In sep (chars_of l).
Proof.
  revert l. induction t as [|c t IH]; intros l; simpl.
  - intros [<-|[]]. simpl. tauto.
  - destruct (Ascii.eqb c sep) eqn:E.
    + intros [<-|H]; [simpl; tauto | apply IH; exact H].
    + destruct (Py.split sep t) as [|l0 ls] eqn:Es.
      * intros [<-|[]]. simpl. intros [H|[]]. subst c.
        rewrite Ascii.eqb_refl in E. discriminate.
      * intros [<-|H].
        -- simpl. intros [H|H].
           ++ subst c. rewrite Ascii.eqb_refl in E. discriminate.
           ++ revert H. apply IH. left. reflexivity.
        -- apply IH. right. exact H.
Qed.

(** ** The extracted query *)

(** X13. An extracted query has no white space at either end (stripping it
    again changes nothing) and no line break in it. *)
Theorem extracted_query_is_clean (t q : string) :
  extract_query t = Ok (Some q) ->
  Py.strip q = q /\ ~ In Py.nl (chars_of q).
Proof.
  rewrite extract_query_cases.
  destruct (sentinel_lines t) as [|l ls] eqn:E.
  - destruct (Py.contains SENTINEL t); discriminate.
  - intros H; inversion H; subst q; clear H.
    unfold query_of_line. split; [apply strip_idem|].
    intros Hin. unfold Py.strip in Hin.
    apply rstrip_chars, lstrip_chars in Hin.
    unfold Py.replace in Hin. apply replace_from_chars in Hin.
    assert (Hl : In l (sentinel_lines t)) by (rewrite E; left; reflexivity).
    apply filter_In in Hl as [Hl _].
    exact (split_pieces_no_sep _ _ _ Hl Hin).
Qed.

Lemma extracted_query_is_clean_witness :
  Py.strip "cream salicylic acid under $25 CAD"
  = "cream salicylic acid under $25 CAD" /\
  ~ In Py.nl (chars_of "cream salicylic acid under $25 CAD").
Proof.
  apply (@extracted_query_is_clean three_line_text
           "cream salicylic acid under $25 CAD").
  vm_compute. reflexivity.
Defined.

(** ** Errors of the prompt builder *)

Lemma audit_line_missing_key (item : dict) :
  is_audit_entry item = false ->
  exists k, Prompt.audit_line item = Raise (KeyError k) /\
            In k ["product_name"; "status"; "notes"] /\ has_key item k = false.
Proof.
  unfold is_audit_entry, Prompt.audit_line, dict_item, has_key.
  destruct (dict_lookup item "product_name") eqn:E1.
  - destruct (dict_lookup item "status") eqn:E2.
    + destruct (dict_lookup item "notes") eqn:E3; [discriminate|].
      intros _. exists "notes". rewrite E3. cbn. intuition.
    + intros _. exists "status". rewrite E2. cbn. intuition.
  - intros _. exists "product_name". rewrite E1. cbn. intuition.
Qed.

Lemma audit_lines_missing_key (items : list dict) :
  forallb is_audit_entry items = false ->
  exists k, Prompt.audit_lines items = Raise (KeyError k) /\
            In k ["product_name"; "status"; "notes"].
Proof.
  induction items as [|item rest IH]; simpl; [discriminate|].
  destruct (is_audit_entry item) eqn:E; simpl.
  - intros H. destruct (audit_line_total _ E) as [l ->].
    destruct (IH H) as (k & -> & Hk). exists k. split; [reflexivity | exact Hk].
  - intros _. destruct (audit_line_missing_key _ E) as (k & -> & Hk & _).
    exists k. split; [reflexivity | exact Hk].
Qed.

Lemma all_str_error (items : list pyval) (e : exn) :
  Prompt.all_str items = Raise e -> e = TypeError.
Proof.
  induction items as [|v items IH]; simpl; [discriminate|].
  destruct v; try (intros H; inversion H; reflexivity).
  destruct (Prompt.all_str items); [discriminate|].
  intros H; inversion H; subst. apply IH. reflexivity.
Qed.

Lemma join_value_error (sep : string) (v : pyval) (e : exn) :
  Prompt.join_value sep v = Raise e -> e = TypeError.
Proof.
  destruct v; simpl; try discriminate; try (intros H; inversion H; reflexivity).
  destruct (Prompt.all_str items) eqn:E; [discriminate|].
  intros H; inversion H; subst. eapply all_str_error; eauto.
Qed.

(** X14. With a profile, the prompt builder raises [KeyError] exactly when
    some audit record lacks one of [product_name], [status] and [notes];
    the text turn then raises that error before anything is sent to the
    model, leaving only the user's message in the transcript. *)
Theorem missing_audit_key_raises (d : dict) (items : list dict) :
  Prompt.profile_missing (Some d) = false ->
  ((exists k, Prompt.construct_system_prompt (Some d) (Some items)
              = Raise (KeyError k))
   <-> forallb is_audit_entry items = false) /\
  (forall k env prompt w,
      Prompt.construct_system_prompt (Some d) (Some items) = Raise (KeyError k) ->
      In k ["product_name"; "status"; "notes"] /\
      chat_turn env (Some d) (Some items) prompt w
      = (Raise (KeyError k),
         mkWorld (messages w ++ [mkMsg "user" prompt]) (log_rows w) (ui w)
                 (gen_requests w) (searches w))).
Proof.
  intros Hp.
  assert (Hiff : forall k,
             Prompt.construct_system_prompt (Some d) (Some items) = Raise (KeyError k) ->
             forallb is_audit_entry items = false /\
             In k ["product_name"; "status"; "notes"]).
  { intros k. unfold Prompt.construct_system_prompt. rewrite Hp.
    destruct (forallb is_audit_entry items) eqn:Ef.
    - destruct (audit_lines_total _ Ef) as [ls ->].
      destruct (Prompt.join_value _ _) as [meds|e] eqn:Em.
      + destruct (Prompt.join_value ", " (dict_get d "avoid_ingredients" _))
          as [avoid|e] eqn:Ea; [discriminate|].
        intros H; inversion H; subst e.
        apply join_value_error in Ea. discriminate.
      + intros H; inversion H; subst e.
        apply join_value_error in Em. discriminate.
    - destruct (audit_lines_missing_key _ Ef) as (k' & -> & Hk').
      intros H; inversion H; subst k'. auto. }
  split.
  - split.
    + intros [k Hk]. apply (Hiff k Hk).
    + intros Hf. destruct (audit_lines_missing_key _ Hf) as (k & Hk & _).
      exists k. unfold Prompt.construct_system_prompt. rewrite Hp, Hk. reflexivity.
  - intros k env prompt w Hk. split; [apply (Hiff k Hk)|].
    rewrite chat_turn_run. unfold after_turn. rewrite Hk. reflexivity.
Qed.

Lemma missing_audit_key_raises_witness :
  ((exists k, Prompt.construct_system_prompt (Some seed_profile)
                (Some [other_user_row; [("product_name", PStr "Serum")]])
              = Raise (KeyError k))
   <-> forallb is_audit_entry [other_user_row; [("product_name", PStr "Serum")]]
       = false) /\
  (forall k env prompt w,
      Prompt.construct_system_prompt (Some seed_profile)
        (Some [other_user_row; [("product_name", PStr "Serum")]])
      = Raise (KeyError k) ->
      In k ["product_name"; "status"; "notes"] /\
      chat_turn env (Some seed_profile)
                (Some [other_user_row; [("product_name", PStr "Serum")]]) prompt w
      = (Raise (KeyError k),
         mkWorld (messages w ++ [mkMsg "user" prompt]) (log_rows w) (ui w)
                 (gen_requests w) (searches w))).
Proof.
  apply (@missing_audit_key_raises seed_profile
           [other_user_row; [("product_name", PStr "Serum")]]).
  reflexivity.
Defined.

Example missing_status_key :
  Prompt.construct_system_prompt (Some seed_profile)
    (Some [other_user_row; [("product_name", PStr "Serum")]])
  = Raise (KeyError "status").
Proof. vm_compute; reflexivity. Qed.

(** ** What the prompt holds *)

Lemma join_cons2 (sep p q : string) (rest : list string) :
  Py.join sep (p :: q :: rest) = (p ++ sep ++ Py.join sep (q :: rest))%string.
Proof. reflexivity. Qed.

Lemma join_app (sep : string) (ps qs : list string) :
  ps <> [] -> qs <> [] ->
  Py.join sep (ps ++ qs) = (Py.join sep ps ++ sep ++ Py.join sep qs)%string.
Proof.
  intros Hp Hq. induction ps as [|p ps IH]; [congruence|].
  destruct ps as [|p' ps].
  - destruct qs as [|q qs]; [congruence|]. reflexivity.
  - change ((p :: p' :: ps) ++ qs) with (p :: p' :: (ps ++ qs)).
    rewrite !join_cons2.
    change (p' :: ps ++ qs) with ((p' :: ps) ++ qs).
    rewrite IH by discriminate. rewrite !str_app_assoc. reflexivity.
Qed.

(** A line of a joined text that has lines with visible text before it and
    after it survives stripping, and so does any text after its prefix. *)
Lemma strip_join_inner (sep : string) (ps qs tail : list string)
    (pre x : string) :
  Py.lstrip (Py.join sep ps) <> EmptyString ->
  Py.rstrip (sep ++ Py.join sep tail) <> EmptyString ->
  ps <> [] -> tail <> [] ->
  Py.contains x (Py.strip (Py.join sep (ps ++ ((pre ++ x)%string :: qs) ++ tail)))
  = true.
Proof.
  intros Hl Hr Hps Htail.
  assert (Hb : exists z, (sep ++ Py.join sep (qs ++ tail)
                          = z ++ (sep ++ Py.join sep tail))%string).
  { destruct qs as [|q qs].
    - exists EmptyString. reflexivity.
    - exists (sep ++ Py.join sep (q :: qs))%string.
      rewrite join_app by (discriminate || assumption).
      rewrite !str_app_assoc. reflexivity. }
  destruct Hb as [z Hz].
  change (((pre ++ x)%string :: qs) ++ tail)
    with ([(pre ++ x)%string] ++ (qs ++ tail)).
  assert (Hne : qs ++ tail <> []).
  { destruct qs; [exact Htail | discriminate]. }
  rewrite join_app by (assumption || discriminate).
  rewrite join_app by (assumption || discriminate).
  cbn [Py.join].
  replace (Py.join sep ps ++ sep ++ (pre ++ x) ++ sep ++ Py.join sep (qs ++ tail))%string
    with (((Py.join sep ps ++ sep) ++ pre) ++ x ++ (z ++ sep ++ Py.join sep tail))%string.
  - apply strip_keeps_inner.
    + rewrite str_app_assoc, lstrip_app by exact Hl.
      destruct (Py.lstrip (Py.join sep ps)); [congruence | discriminate].
    + rewrite rstrip_app by exact Hr.
      destruct z; simpl; [exact Hr | discriminate].
  - rewrite <- Hz. rewrite !str_app_assoc. reflexivity.
Qed.

(** Splits the template's lines around line [k]; the last eight lines are
    fixed text. *)
Ltac around_line k pre x :=
  unfold Prompt.template;
  match goal with
  | |- Py.contains _ (Py.strip (Py.join ?sep ?lines)) = true =>
      change lines
        with (firstn k lines
              ++ ((pre ++ x)%string :: firstn (19 - k) (skipn (S k) lines))
              ++ skipn 20 lines);
      apply strip_join_inner;
      [ let H := fresh in intro H; vm_compute in H; discriminate H
      | let H := fresh in intro H; vm_compute in H; discriminate H
      | discriminate
      | discriminate ]
  end.

Lemma template_embeds (barrier meds profile_str avoid audit_str : string) :
  let s := Py.strip (Prompt.template barrier meds profile_str avoid audit_str) in
  Py.contains barrier s = true /\
  Py.contains meds s = true /\
  Py.contains profile_str s = true /\
  Py.contains avoid s = true /\
  Py.contains audit_str s = true.
Proof.
  cbv zeta. repeat split.
  - around_line 10 "    -   **Barrier Status:** "%string barrier.
  - around_line 11 "    -   **Active Medications:** "%string meds.
  - around_line 14 "        "%string profile_str.
  - around_line 16 "    -   **Ingredients to Avoid:** "%string avoid.
  - around_line 19 "    "%string audit_str.
Qed.

Lemma audit_lines_member (items : list dict) (ls : list string) (item : dict)
    (l : string) :
  Prompt.audit_lines items = Ok ls -> In item items ->
  Prompt.audit_line item = Ok l -> In l ls.
Proof.
  revert ls. induction items as [|it rest IH]; intros ls Hls Hin Hl;
    [destruct Hin|].
  simpl in Hls.
  destruct (Prompt.audit_line it) as [l0|e] eqn:E0; [|discriminate].
  destruct (Prompt.audit_lines rest) as [ls0|e]; [|discriminate].
  inversion Hls; subst ls; clear Hls.
  destruct Hin as [->|Hin].
  - rewrite Hl in E0. inversion E0. left. reflexivity.
  - right. eapply IH; eauto.
Qed.

(** X15. A prompt built from a profile holds, verbatim, the barrier status
    (or [N/A]), the joined medication and ingredient lists, the JSON text
    of the concerns document and the bullet of every audit record. *)
Theorem prompt_embeds_profile (d : dict) (items : list dict) (s : string) :
  Prompt.profile_missing (Some d) = false ->
  Prompt.construct_system_prompt (Some d) (Some items) = Ok s ->
  Py.contains (Render.str (dict_get d "barrier_status" (PStr "N/A"))) s = true /\
  Py.contains (Render.json_dumps 2 (dict_get d "current_concerns" (PDict []))) s
  = true /\
  (forall meds,
      Prompt.join_value ", " (dict_get d "active_medications" (PList [])) = Ok meds ->
      Py.contains meds s = true) /\
  (forall avoid,
      Prompt.join_value ", " (dict_get d "avoid_ingredients" (PList [])) = Ok avoid ->
      Py.contains avoid s = true) /\
  (forall item l,
      In item items -> Prompt.audit_line item = Ok l -> Py.contains l s = true).
Proof.
  intros Hp. unfold Prompt.construct_system_prompt. rewrite Hp.
  destruct (Prompt.audit_lines items) as [ls|e] eqn:El; [|discriminate].
  destruct (Prompt.join_value ", " (dict_get d "active_medications" _))
    as [meds|e] eqn:Em; [|discriminate].
  destruct (Prompt.join_value ", " (dict_get d "avoid_ingredients" _))
    as [avoid|e] eqn:Ea; [|discriminate].
  intros H; inversion H; subst s; clear H.
  destruct (template_embeds
              (Render.str (dict_get d "barrier_status" (PStr "N/A"))) meds
              (Render.json_dumps 2 (dict_get d "current_concerns" (PDict [])))
              avoid (Py.join (String Py.nl EmptyString) ls))
    as (Hb & Hm & Hj & Hav & Hau).
  repeat split; try assumption.
  - intros m Hm'. inversion Hm'; subst m. exact Hm.
  - intros v Hv. inversion Hv; subst v. exact Hav.
  - intros item l Hin Hl.
    eapply contains_trans; [|exact Hau].
    apply contains_join. eapply audit_lines_member; eauto.
Qed.

Lemma prompt_embeds_profile_witness :
  Py.contains (Render.str (dict_get seed_profile "barrier_status" (PStr "N/A")))
              seed_prompt = true /\
  Py.contains (Render.json_dumps 2 (dict_get seed_profile "current_concerns" (PDict [])))
              seed_prompt = true /\
  (forall meds,
      Prompt.join_value ", " (dict_get seed_profile "active_medications" (PList []))
      = Ok meds ->
      Py.contains meds seed_prompt = true) /\
  (forall avoid,
      Prompt.join_value ", " (dict_get seed_profile "avoid_ingredients" (PList []))
      = Ok avoid ->
      Py.contains avoid seed_prompt = true) /\
  (forall item l,
      In item seed_audit -> Prompt.audit_line item = Ok l ->
      Py.contains l seed_prompt = true).
Proof.
  apply (@prompt_embeds_profile seed_profile seed_audit seed_prompt).
  - reflexivity.
  - vm_compute. reflexivity.
Defined.

Example seed_prompt_audit_bullet :
  Py.contains "- Micro-Peeling gels (Unsafe): Compromises barrier." seed_prompt
  = true.
Proof. vm_compute; reflexivity. Qed.

Lemma template_is_not_generic (barrier meds profile_str avoid audit_str : string) :
  Py.strip (Prompt.template barrier meds profile_str avoid audit_str)
  <> Prompt.FALLBACK_PROMPT.
Proof.
  intros H.
  assert (Hc : Py.contains "Devashree's Current Skin Profile**"
                 (Py.strip (Prompt.template barrier meds profile_str avoid audit_str))
               = true)
    by (around_line 9 "    **DEEP CONTEXT: "%string
                      "Devashree's Current Skin Profile**"%string).
  rewrite H in Hc. vm_compute in Hc. discriminate Hc.
Qed.

(** X16. In a run of the script the prompt builder returns the generic
    prompt exactly when the fetch failed: a fetched profile is never empty
    and never comes without its audit list, and the prompt built from it
    differs from the generic one. *)
Theorem generic_prompt_iff_fetch_failed
    (get_all_records : string -> result (list dict))
    (json_loads : pyval -> result pyval) :
  let fetched := fst (get_user_data get_all_records json_loads USER_ID) in
  Prompt.construct_system_prompt (fst fetched) (snd fetched)
  = Ok Prompt.FALLBACK_PROMPT
  <-> fetched = (None, None).
Proof.
  cbv zeta. unfold get_user_data.
  destruct (fetch_user_data get_all_records json_loads USER_ID)
    as [[d items]|e] eqn:E; cbn [fst snd].
  - split; [|discriminate]. intros H. exfalso.
    destruct (fetch_user_data_inv _ _ _ E)
      as (precs & row & rest & arecs & d1 & d2 & _ & _ & _ & _ & _ & _ & _ & E3).
    apply decode_field_spec in E3 as [(v & _ & Hv) _]; [|differ].
    unfold Prompt.construct_system_prompt in H.
    assert (Hm : Prompt.profile_missing (Some d) = false).
    { destruct d; [discriminate Hv | reflexivity]. }
    rewrite Hm in H.
    destruct (Prompt.audit_lines items); [|discriminate].
    destruct (Prompt.join_value _ _); [|discriminate].
    destruct (Prompt.join_value _ _); [|discriminate].
    inversion H as [H']. exact (template_is_not_generic _ _ _ _ _ H').
  - split; reflexivity.
Qed.
